(** * Delta2Simulator: the rocket model of [rocket.py]

    A shallow embedding of the classes [Stage], [Payload] and [Rocket] and
    of the values, exceptions and object store of the Python program they
    run in, followed by the properties of the specification.

    Numbers.  Python's [float] is IEEE 754 binary64.  The arithmetic the
    classes perform is written once, over an interface [Arith], which has
    two instances:
    - [binary64], Rocq's primitive floats: the numbers the program really
      computes with (rounding, infinities and NaN included); every
      definition evaluates on it;
    - [exact], the real numbers: the same operations without rounding and
      without overflow.  The identities the specification gives "within
      floating-point tolerance" are stated over it, and what binary64 makes
      of them (rounding, overflow to infinity, NaN) is shown on [binary64].

    numpy.  [np.sin], [np.cos] and [np.arccos] are an interface [Trig]: the
    functions of the reals on [exact], and on [binary64] the functions
    [numpy_trig], in which only what IEEE 754 fixes is written out.

    Objects.  A [Stage] is a mutable object: a rocket's [stages] and [srbs]
    hold references into a store of stage objects, so that one object listed
    twice is one object. *)

From Stdlib Require Import ZArith Reals Lra Floats.
From stdpp Require Import base option list gmap strings.

(** A decimal literal such as [0.1] stands for the nearest binary64 value,
    as it does in Python. *)
#[global] Set Warnings "-inexact-float".

(** ** Exceptions and outcomes *)

Inductive exn : Set :=
  | TypeError
  | ValueError
  | IndexError
  | ZeroDivisionError.

Inductive outcome (A : Type) : Type :=
  | Ok (a : A)
  | Raise (e : exn).
Arguments Ok {A} a.
Arguments Raise {A} e.

#[global] Instance outcome_bind : MBind outcome := λ A B f o,
  match o with Ok a => f a | Raise e => Raise e end.

(** A method is a function of the object (or world) it runs on: it returns
    a value or raises, and leaves a state behind in both cases, as a Python
    method that raises keeps the assignments made before the [raise]. *)
Definition Py (S A : Type) : Type := S → outcome A * S.

Definition ret {S A} (a : A) : Py S A := λ s, (Ok a, s).
Definition raise {S A} (e : exn) : Py S A := λ s, (Raise e, s).
Definition bind {S A B} (m : Py S A) (k : A → Py S B) : Py S B := λ s,
  match m s with
  | (Ok a, s') => k a s'
  | (Raise e, s') => (Raise e, s')
  end.
Definition get {S A} (f : S → A) : Py S A := λ s, (Ok (f s), s).
Definition modify {S} (f : S → S) : Py S unit := λ s, (Ok (), f s).
Definition lift {S A} (o : outcome A) : Py S A := λ s, (o, s).

#[global] Instance Py_bind {S} : MBind (Py S) := λ A B k m, bind m k.

(** ** Numbers *)

(** The float operations the program uses.  Python's integer literals [0],
    [1] and [100] only ever meet floats, where they are converted to [0.0],
    [1.0] and [100.0]: they are the constants of the interface. *)
Class Arith (F : Type) : Type := {
  f0 : F;
  f1 : F;
  f100 : F;
  fadd : F → F → F;
  fsub : F → F → F;
  fmul : F → F → F;
  fdiv : F → F → F;
  fsqrt : F → F;
  feqb : F → F → bool;
  fltb : F → F → bool;
  fleb : F → F → bool;
}.

Declare Scope num_scope.
Delimit Scope num_scope with num.
Infix "+" := fadd : num_scope.
Infix "-" := fsub : num_scope.
Infix "*" := fmul : num_scope.
Infix "/" := fdiv : num_scope.
Infix "==" := feqb (at level 70, no associativity) : num_scope.
Infix "<?" := fltb : num_scope.
Infix "<=?" := fleb : num_scope.
Notation "x >? y" := (fltb y x) (only parsing) : num_scope.
Notation "x >=? y" := (fleb y x) (only parsing) : num_scope.

#[global] Instance binary64 : Arith float := {|
  f0 := 0%float;
  f1 := 1%float;
  f100 := 100%float;
  fadd := PrimFloat.add;
  fsub := PrimFloat.sub;
  fmul := PrimFloat.mul;
  fdiv := PrimFloat.div;
  fsqrt := PrimFloat.sqrt;
  feqb := PrimFloat.eqb;
  fltb := PrimFloat.ltb;
  fleb := PrimFloat.leb;
|}.

#[global] Instance Rlt_decision : RelDecision Rlt := Rlt_dec.
#[global] Instance Rle_decision : RelDecision Rle := Rle_dec.
#[global] Instance Req_decision : EqDecision R := Req_dec_T.

#[global] Instance exact : Arith R := {|
  f0 := 0%R;
  f1 := 1%R;
  f100 := 100%R;
  fadd := Rplus;
  fsub := Rminus;
  fmul := Rmult;
  fdiv := Rdiv;
  fsqrt := R_sqrt.sqrt;
  feqb := λ x y, bool_decide (x = y);
  fltb := λ x y, bool_decide (x < y)%R;
  fleb := λ x y, bool_decide (x <= y)%R;
|}.

(** numpy's [sin], [cos] and [arccos].  In exact arithmetic they are the
    functions of the reals.  [np.arccos] is [nan] outside [-1, 1], a value
    the reals do not have; [acos] is only read inside that interval (lemma
    [dot_up_range]). *)
Class Trig (F : Type) : Type := {
  np_sin : F → F;
  np_cos : F → F;
  np_arccos : F → F;
}.

#[global] Instance exact_trig : Trig R := {|
  np_sin := sin;
  np_cos := cos;
  np_arccos := acos;
|}.

(** numpy's [sin], [cos] and [arccos] on binary64.  numpy is a library the
    program calls, and the values it returns at ordinary arguments have no
    closed form: they are the parameters [sin_fin], [cos_fin] and
    [arccos_fin].  What IEEE 754 fixes, and numpy follows, is written out:
    [sin] and [cos] of NaN and of an infinity are NaN, and [arccos] is NaN
    at NaN and outside [[-1, 1]]. *)
Definition numpy_trig (sin_fin cos_fin arccos_fin : float → float)
    : Trig float := {|
  np_sin := λ v, if is_finite v then sin_fin v else nan;
  np_cos := λ v, if is_finite v then cos_fin v else nan;
  np_arccos := λ v,
    if ((-1) <=? v)%float && (v <=? 1)%float then arccos_fin v else nan;
|}.

(** [np.pi], the binary64 number nearest to pi. *)
Definition np_pi : float := 3.141592653589793%float.

(** Python's [x / y] on floats, which raises on a zero divisor. *)
Definition py_div `{Arith F} (x y : F) : outcome F :=
  if (y == f0)%num then Raise ZeroDivisionError else Ok (x / y)%num.

(** ** Vectors *)

Module Vector.
Section Vector.
Context {F : Type} `{Arith F}.

(** Modelled from the spec: the class [Vector] of the module [vector],
    which [rocket.py] imports and the sources do not hold.  The
    specification calls it an immutable 3D vector with addition, scalar
    multiplication, dot product and normalization; the operations below
    are the ones [rocket.py] calls, component by component. *)
Record t : Type := Vector { x : F; y : F; z : F }.

(** Modelled from the spec: [v + w], the addition of [Vector]. *)
Definition add (v w : t) : t :=
  Vector (x v + x w)%num (y v + y w)%num (z v + z w)%num.

(** Modelled from the spec: [k * v], the scalar multiplication of
    [Vector], a float times a vector. *)
Definition rmul (k : F) (v : t) : t :=
  Vector (k * x v)%num (k * y v)%num (k * z v)%num.

(** Modelled from the spec: [v / k], the division of a [Vector] by a
    float.  The specification has the division of a momentum by a total
    mass of zero fail, as Python's division of floats does. *)
Definition truediv (v : t) (k : F) : outcome t :=
  a ← py_div (x v) k; b ← py_div (y v) k; c ← py_div (z v) k;
  Ok (Vector a b c).

(** Modelled from the spec: [v.dot(w)], the dot product of [Vector]. *)
Definition dot (v w : t) : F :=
  (x v * x w + y v * y w + z v * z w)%num.

(** Modelled from the spec: the length of a [Vector], which its
    normalization divides by. *)
Definition norm (v : t) : F := fsqrt (dot v v).

(** Modelled from the spec: [v.hat()], the normalization of [Vector]: the
    vector divided by its length. *)
Definition hat (v : t) : outcome t := truediv v (norm v).
End Vector.
#[global] Arguments t : clear implicits.
#[global] Arguments Vector {F} x y z.
End Vector.

(** ** Python values *)

(** Objects are named by their place in the store of their class. *)
Definition loc : Set := nat.

Inductive pyclass : Set := Stage_class | Payload_class.

(** The values a caller can pass: floats, the non-floats [isinstance]
    tells apart from them, vectors, and references to objects. *)
Inductive pyval (F : Type) : Type :=
  | PyFloat (x : F)
  | PyInt (n : Z)
  | PyBool (b : bool)
  | PyStr (s : string)
  | PyNone
  | PyVector (v : Vector.t F)
  | PyObject (c : pyclass) (l : loc).
Arguments PyFloat {F} x.
Arguments PyInt {F} n.
Arguments PyBool {F} b.
Arguments PyStr {F} s.
Arguments PyNone {F}.
Arguments PyVector {F} v.
Arguments PyObject {F} c l.

(** ** Stages *)

Module Stage.
Section Stage.
Context {F : Type} `{Arith F}.

(** [throttle] starts as the integer [0] and is a float after
    [set_throttle]; every read multiplies it with a float, so that it is
    kept as the float it is converted to.  [length] is whatever the
    options held.  [axis] starts as [Vector(0,0,0)]. *)
Record t : Type := mk {
  dry_mass : F;
  fuel_mass : F;
  max_thrust_mag : F;
  max_dmdt : F;
  throttle : F;
  length : pyval F;
  axis : Vector.t F;
}.

Definition with_fuel_mass (v : F) (self : t) : t :=
  mk (dry_mass self) v (max_thrust_mag self) (max_dmdt self)
     (throttle self) (length self) (axis self).
Definition with_throttle (v : F) (self : t) : t :=
  mk (dry_mass self) (fuel_mass self) (max_thrust_mag self) (max_dmdt self)
     v (length self) (axis self).
Definition with_axis (v : Vector.t F) (self : t) : t :=
  mk (dry_mass self) (fuel_mass self) (max_thrust_mag self) (max_dmdt self)
     (throttle self) (length self) v.

(** [options.get(key) if key in options else 0.0] *)
Definition option_or_zero (options : gmap string (pyval F)) (key : string)
  : pyval F :=
  match options !! key with Some v => v | None => PyFloat f0 end.

(** The check [__init__] makes on four of its attributes:
    [isinstance(v, float)], else [TypeError]; [v < 0.0] gives
    [ValueError]. *)
Definition checked (v : pyval F) : outcome F :=
  match v with
  | PyFloat a => if (a <? f0)%num then Raise ValueError else Ok a
  | _ => Raise TypeError
  end.

(** [Stage(options)]: the attributes are read first, then [dry_mass],
    [fuel_mass], [max_thrust_mag] and [max_dmdt] are checked in this
    order.  [length] is not checked. *)
Definition __init__ (options : gmap string (pyval F)) : outcome t :=
  let dry_mass := option_or_zero options "dry_mass" in
  let fuel_mass := option_or_zero options "fuel_mass" in
  let max_thrust_mag := option_or_zero options "max_thrust_mag" in
  let max_dmdt := option_or_zero options "max_dmdt" in
  let throttle := f0 in
  let length := option_or_zero options "length" in
  let axis := Vector.Vector f0 f0 f0 in
  dry_mass ← checked dry_mass;
  fuel_mass ← checked fuel_mass;
  max_thrust_mag ← checked max_thrust_mag;
  max_dmdt ← checked max_dmdt;
  Ok (mk dry_mass fuel_mass max_thrust_mag max_dmdt throttle length axis).

(** The property [attitude] and its setter. *)
Definition attitude (self : t) : Vector.t F := axis self.

Definition set_attitude (attitude : pyval F) : Py t unit :=
  match attitude with
  | PyVector v => modify (with_axis v)
  | _ => raise TypeError
  end.

Definition set_throttle (throttle : pyval F) : Py t unit :=
  match throttle with
  | PyFloat v =>
      if (v >? f100)%num || (v <? f0)%num then raise ValueError
      else modify (with_throttle v)
  | _ => raise TypeError
  end.

Definition current_thrust (self : t) : F :=
  (max_thrust_mag self * throttle self / f100)%num.

Definition current_fuel_consumption (self : t) : F :=
  (max_dmdt self * throttle self / f100)%num.

(** [self.fuel_mass -= self.max_dmdt*self.throttle/100*time_step], on the
    float that [Rocket.update_total_mass], its caller, has checked
    [time_step] to be. *)
Definition update_mass (time_step : F) (self : t) : t :=
  with_fuel_mass
    (fuel_mass self - max_dmdt self * throttle self / f100 * time_step)%num
    self.
End Stage.
#[global] Arguments t : clear implicits.
#[global] Arguments mk {F}.
End Stage.

#[global] Instance Stage_inhabited `{Arith F} : Inhabited (Stage.t F) :=
  populate (Stage.mk f0 f0 f0 f0 f0 (PyFloat f0) (Vector.Vector f0 f0 f0)).

(** ** Payloads *)

Module Payload.
Section Payload.
Context {F : Type} `{Arith F}.

Record t : Type := mk { mass : F }.

(** [Payload(mass, length)]: [length] is a parameter of [__init__] that
    its body never reads. *)
Definition __init__ (mass length : pyval F) : outcome t :=
  match mass with
  | PyFloat m => if (m >? f0)%num then Ok (mk m) else Raise ValueError
  | _ => Raise TypeError
  end.
End Payload.
#[global] Arguments t : clear implicits.
#[global] Arguments mk {F}.
End Payload.

#[global] Instance Payload_inhabited `{Arith F} : Inhabited (Payload.t F) :=
  populate (Payload.mk f0).

(** ** Rockets *)

(** [for x in xs: body(x)] *)
Fixpoint for_each {S A} (xs : list A) (body : A → Py S unit) : Py S unit :=
  match xs with
  | [] => ret ()
  | x :: xs' => body x;; for_each xs' body
  end.

Module Rocket.
Section Rocket.
Context {F : Type} `{Arith F} `{Trig F}.

(** [stages], [srbs] and [payloads] are Python lists of objects: lists of
    references.  [roll_rate] starts as the integer [0], kept as the float
    it is converted to where it is read. *)
Record t : Type := mk {
  stages : list loc;
  srbs : list loc;
  payloads : list loc;
  coeff_drag : F;
  cross_sec_area : F;
  pos : Vector.t F;
  momentum : Vector.t F;
  axis : Vector.t F;
  roll_rate : F;
}.

(** What a method of a rocket can read and write: the rocket [self], and
    the stage and payload objects its lists refer to. *)
Record world : Type := World {
  stage_objs : list (Stage.t F);
  payload_objs : list (Payload.t F);
  self : t;
}.

Definition with_stages (v : list loc) (r : t) : t :=
  mk v (srbs r) (payloads r) (coeff_drag r) (cross_sec_area r) (pos r)
     (momentum r) (axis r) (roll_rate r).
Definition with_srbs (v : list loc) (r : t) : t :=
  mk (stages r) v (payloads r) (coeff_drag r) (cross_sec_area r) (pos r)
     (momentum r) (axis r) (roll_rate r).
Definition with_payloads (v : list loc) (r : t) : t :=
  mk (stages r) (srbs r) v (coeff_drag r) (cross_sec_area r) (pos r)
     (momentum r) (axis r) (roll_rate r).
Definition with_momentum (v : Vector.t F) (r : t) : t :=
  mk (stages r) (srbs r) (payloads r) (coeff_drag r) (cross_sec_area r)
     (pos r) v (axis r) (roll_rate r).
Definition with_axis (v : Vector.t F) (r : t) : t :=
  mk (stages r) (srbs r) (payloads r) (coeff_drag r) (cross_sec_area r)
     (pos r) (momentum r) v (roll_rate r).
Definition with_roll_rate (v : F) (r : t) : t :=
  mk (stages r) (srbs r) (payloads r) (coeff_drag r) (cross_sec_area r)
     (pos r) (momentum r) (axis r) v.

(** [self.attr = ...] *)
Definition on_self (f : t → t) (w : world) : world :=
  World (stage_objs w) (payload_objs w) (f (self w)).

(** A method of the stage object at [l], run on that object, which keeps
    what the method leaves of it. *)
Definition call_stage {A} (l : loc) (m : Py (Stage.t F) A) : Py world A :=
  λ w, let (o, s) := m (stage_objs w !!! l) in
       (o, World (<[l := s]> (stage_objs w)) (payload_objs w) (self w)).

Definition stage_at (w : world) (l : loc) : Stage.t F := stage_objs w !!! l.
Definition payload_at (w : world) (l : loc) : Payload.t F :=
  payload_objs w !!! l.

Definition __init__ (pos coeff_drag cross_sec_area : pyval F) : outcome t :=
  let stages := [] in
  let srbs := [] in
  let payloads := [] in
  coeff_drag ←
    match coeff_drag with
    | PyFloat c => if (c >? f0)%num then Ok c else Raise ValueError
    | _ => Raise TypeError
    end;
  cross_sec_area ←
    match cross_sec_area with
    | PyFloat a => if (a >? f0)%num then Ok a else Raise ValueError
    | _ => Raise TypeError
    end;
  pos ← match pos with PyVector p => Ok p | _ => Raise TypeError end;
  Ok (mk stages srbs payloads coeff_drag cross_sec_area pos
        (Vector.Vector f0 f0 f0) (Vector.Vector f0 f1 f0) f0).

Definition add_stage (stage : pyval F) : Py world unit :=
  match stage with
  | PyObject Stage_class l =>
      modify (on_self (λ r, with_stages (stages r ++ [l]) r))
  | _ => raise TypeError
  end.

Definition add_payload (payload : pyval F) : Py world unit :=
  match payload with
  | PyObject Payload_class l =>
      modify (on_self (λ r, with_payloads (payloads r ++ [l]) r))
  | _ => raise TypeError
  end.

Definition add_srb (srb : pyval F) : Py world unit :=
  match srb with
  | PyObject Stage_class l =>
      modify (on_self (λ r, with_srbs (srbs r ++ [l]) r))
  | _ => raise TypeError
  end.

(** The three loops of the property [total_mass], in their order. *)
Definition total_mass (w : world) : F :=
  let total_mass := f0 in
  let total_mass :=
    foldl (λ total_mass srb,
             total_mass + (Stage.dry_mass (stage_at w srb)
                           + Stage.fuel_mass (stage_at w srb)))%num
          total_mass (srbs (self w)) in
  let total_mass :=
    foldl (λ total_mass stage,
             total_mass + (Stage.dry_mass (stage_at w stage)
                           + Stage.fuel_mass (stage_at w stage)))%num
          total_mass (stages (self w)) in
  foldl (λ total_mass payload,
           total_mass + Payload.mass (payload_at w payload))%num
        total_mass (payloads (self w)).

Definition active_stage_thrust (w : world) : Vector.t F :=
  match stages (self w) with
  | stage :: _ =>
      Vector.rmul (Stage.current_thrust (stage_at w stage)) (axis (self w))
  | [] => Vector.Vector f0 f0 f0
  end.

Definition srb_thrust (w : world) : Vector.t F :=
  match srbs (self w) with
  | _ :: _ =>
      let total_thrust_mag :=
        foldl (λ total srb,
                 total + Stage.current_thrust (stage_at w srb))%num
              f0 (srbs (self w)) in
      Vector.rmul total_thrust_mag (axis (self w))
  | [] => Vector.Vector f0 f0 f0
  end.

Definition total_thrust (w : world) : Vector.t F :=
  Vector.add (active_stage_thrust w) (srb_thrust w).

Definition update_total_mass (time_step : pyval F) : Py world unit :=
  match time_step with
  | PyFloat dt =>
      if (dt >? f0)%num then
        stages ← get (stages ∘ self);
        match stages with
        | stage :: _ => call_stage stage (modify (Stage.update_mass dt))
        | [] => ret ()
        end;;
        srbs ← get (srbs ∘ self);
        for_each srbs (λ srb, call_stage srb (modify (Stage.update_mass dt)))
      else raise ValueError
  | _ => raise TypeError
  end.

(** [self.stages.pop(0)], which raises [IndexError] on an empty list. *)
Definition pop_active_stage : Py world loc := λ w,
  match stages (self w) with
  | stage :: rest => (Ok stage, on_self (with_stages rest) w)
  | [] => (Raise IndexError, w)
  end.

Definition separate_active_stage : Py world unit :=
  p ← get (momentum ∘ self);
  m ← get total_mass;
  velocity ← lift (Vector.truediv p m);
  pop_active_stage;;
  m' ← get total_mass;
  modify (on_self (with_momentum (Vector.rmul m' velocity))).

Definition separate_srbs : Py world unit :=
  p ← get (momentum ∘ self);
  m ← get total_mass;
  velocity ← lift (Vector.truediv p m);
  modify (on_self (with_srbs []));;
  m' ← get total_mass;
  modify (on_self (with_momentum (Vector.rmul m' velocity))).

Definition attitude (w : world) : F :=
  np_arccos (Vector.dot (axis (self w)) (Vector.Vector f0 f1 f0)).

(** [time_step] is the float the simulation loop passes. *)
Definition set_attitude (time_step : F) : Py world unit :=
  theta ← get attitude;
  roll_rate ← get (roll_rate ∘ self);
  let theta := (theta + roll_rate * time_step)%num in
  axis ← lift (Vector.hat (Vector.Vector (np_sin theta) (np_cos theta) f0));
  modify (on_self (with_axis axis)).

Definition set_roll_rate (roll_rate : pyval F) : Py world unit :=
  match roll_rate with
  | PyFloat v => modify (on_self (with_roll_rate v))
  | _ => raise TypeError
  end.

Definition adjust_throttle (throttle : pyval F) : Py world unit :=
  stages ← get (stages ∘ self);
  match stages with
  | stage :: _ =>
      match throttle with
      | PyFloat v =>
          if (v >=? f0)%num && (v <=? f100)%num
          then call_stage stage (Stage.set_throttle throttle)
          else raise ValueError
      | _ => raise TypeError
      end
  | [] => ret ()
  end.

Definition ignite_srbs : Py world unit :=
  srbs ← get (srbs ∘ self);
  for_each srbs (λ srb, call_stage srb (Stage.set_throttle (PyFloat f100))).
End Rocket.
#[global] Arguments t : clear implicits.
#[global] Arguments world : clear implicits.
#[global] Arguments mk {F}.
#[global] Arguments World {F}.
End Rocket.

(** * The vocabulary of the specification *)

(** The two error kinds of the specification.  [InvalidArgument] is a
    value of the wrong type or outside its domain: the [TypeError] and
    [ValueError] that the checks of the classes raise.  A
    [PreconditionViolation] is an operation on a rocket that is in no state
    for it: [pop(0)] on an empty list, and the division by a total mass of
    zero. *)
Definition InvalidArgument (e : exn) : bool :=
  match e with TypeError | ValueError => true | _ => false end.

Definition PreconditionViolation (e : exn) : bool :=
  match e with IndexError | ZeroDivisionError => true | _ => false end.

(** The closed interval [[0.0, 100.0]] of throttle values. *)
Definition in_throttle_range (v : float) : bool :=
  (0 <=? v)%float && (v <=? 100)%float.

(** A positive finite number, as the specification asks of a payload's
    mass: a positive finite float, or a positive integer. *)
Definition positive_finite (v : pyval float) : bool :=
  match v with
  | PyFloat m => is_finite m && (0 <? m)%float
  | PyInt n => bool_decide (0 < n)%Z
  | _ => false
  end.

(** The number of times an object is listed. *)
Definition occurrences (l : loc) (ls : list loc) : nat :=
  length (filter (λ l', l' = l) ls).

(** The objects [update_total_mass] calls [update_mass] on, in the order of
    the calls: the active stage, then the boosters. *)
Definition burning {F} (r : Rocket.t F) : list loc :=
  take 1 (Rocket.stages r) ++ Rocket.srbs r.

(** The store after [objs[l] = f(objs[l])]. *)
Definition stored `{Arith F} (f : Stage.t F → Stage.t F)
    (objs : list (Stage.t F)) (l : loc) : list (Stage.t F) :=
  <[l := f (objs !!! l)]> objs.

(** The methods of a rocket, with their arguments; [set_attitude] with the
    float time step of the simulation loop.  The properties ([total_mass],
    the thrusts, [attitude]) only read. *)
Inductive call (F : Type) : Type :=
  | Add_stage (stage : pyval F)
  | Add_payload (payload : pyval F)
  | Add_srb (srb : pyval F)
  | Update_total_mass (time_step : pyval F)
  | Separate_active_stage
  | Separate_srbs
  | Set_attitude (time_step : F)
  | Set_roll_rate (roll_rate : pyval F)
  | Adjust_throttle (throttle : pyval F)
  | Ignite_srbs.
Arguments Add_stage {F} stage.
Arguments Add_payload {F} payload.
Arguments Add_srb {F} srb.
Arguments Update_total_mass {F} time_step.
Arguments Separate_active_stage {F}.
Arguments Separate_srbs {F}.
Arguments Set_attitude {F} time_step.
Arguments Set_roll_rate {F} roll_rate.
Arguments Adjust_throttle {F} throttle.
Arguments Ignite_srbs {F}.

Definition run `{Arith F} `{Trig F} (c : call F) : Py (Rocket.world F) unit :=
  match c with
  | Add_stage stage => Rocket.add_stage stage
  | Add_payload payload => Rocket.add_payload payload
  | Add_srb srb => Rocket.add_srb srb
  | Update_total_mass time_step => Rocket.update_total_mass time_step
  | Separate_active_stage => Rocket.separate_active_stage
  | Separate_srbs => Rocket.separate_srbs
  | Set_attitude time_step => Rocket.set_attitude time_step
  | Set_roll_rate roll_rate => Rocket.set_roll_rate roll_rate
  | Adjust_throttle throttle => Rocket.adjust_throttle throttle
  | Ignite_srbs => Rocket.ignite_srbs
  end.

(** The world after a sequence of calls, whether they returned or raised
    (a caller may catch the exception and go on). *)
Definition after `{Arith F} `{Trig F} (calls : list (call F))
    (w : Rocket.world F) : Rocket.world F :=
  foldl (λ w c, (run c w).2) w calls.

(** A vector of length one, in exact arithmetic. *)
Definition unit_vector (v : Vector.t R) : Prop := Vector.norm v = 1%R.

(** ** Objects of the scenarios *)

(** The options and the stage of the specification's first scenario. *)
Definition scenario_options : gmap string (pyval float) :=
  {[ "dry_mass" := PyFloat 100%float; "fuel_mass" := PyFloat 50%float;
     "max_thrust_mag" := PyFloat 1000%float; "max_dmdt" := PyFloat 5%float ]}.

Definition scenario_stage : Stage.t float :=
  Stage.mk 100%float 50%float 1000%float 5%float 0%float
           (PyFloat 0%float) (Vector.Vector 0%float 0%float 0%float).

(** A booster of the second scenario. *)
Definition scenario_booster : Stage.t float :=
  Stage.mk 10%float 5%float 200%float 0%float 0%float
           (PyFloat 0%float) (Vector.Vector 0%float 0%float 0%float).

(** [Rocket(Vector(0,0,0), 0.5, 1.0)] *)
Definition fresh_rocket : Rocket.t float :=
  Rocket.mk [] [] [] 0.5%float 1%float
    (Vector.Vector 0%float 0%float 0%float)
    (Vector.Vector 0%float 0%float 0%float)
    (Vector.Vector 0%float 1%float 0%float) 0%float.

(** A new rocket beside one stage object. *)
Definition launch_pad : Rocket.world float :=
  Rocket.World [scenario_stage] [] fresh_rocket.

(** [rocket.add_stage(s); rocket.add_stage(s); rocket.adjust_throttle(100.0)]
    for one stage object [s]. *)
Definition add_same_stage_twice : Py (Rocket.world float) unit :=
  Rocket.add_stage (PyObject Stage_class 0);;
  Rocket.add_stage (PyObject Stage_class 0);;
  Rocket.adjust_throttle (PyFloat 100%float).

(** A new rocket beside two booster objects, and
    [rocket.add_srb(b0); rocket.add_srb(b1); rocket.ignite_srbs()]. *)
Definition booster_pad : Rocket.world float :=
  Rocket.World [scenario_booster; scenario_booster] [] fresh_rocket.

Definition add_and_ignite_boosters : Py (Rocket.world float) unit :=
  Rocket.add_srb (PyObject Stage_class 0);;
  Rocket.add_srb (PyObject Stage_class 1);;
  Rocket.ignite_srbs.

(** A rocket that carries a payload of mass [1.0] and nothing else. *)
Definition payload_only : Rocket.world float :=
  Rocket.World [] [Payload.mk 1%float]
    (Rocket.with_payloads [0] fresh_rocket).

(** A stage with [2.0**54] kg of fuel at full throttle, and one with
    [1.0] kg that burns [0.1] kg/s. *)
Definition heavy_stage : Stage.t float :=
  Stage.mk 0%float 18014398509481984%float 0%float 1%float 100%float
           (PyFloat 0%float) (Vector.Vector 0%float 0%float 0%float).

Definition light_stage : Stage.t float :=
  Stage.mk 0%float 1%float 0%float 0.1%float 100%float
           (PyFloat 0%float) (Vector.Vector 0%float 0%float 0%float).

(** [Rocket(Vector(0,0,0), 0.5, 1.0)], in exact arithmetic. *)
Definition exact_rocket : Rocket.t R :=
  Rocket.mk [] [] [] 0.5%R 1%R (Vector.Vector 0%R 0%R 0%R)
    (Vector.Vector 0%R 0%R 0%R) (Vector.Vector 0%R 1%R 0%R) 0%R.

(** A stage at full throttle, in exact arithmetic. *)
Definition exact_stage : Stage.t R :=
  Stage.mk 100%R 50%R 1000%R 5%R 100%R (PyFloat 0%R)
           (Vector.Vector 0%R 0%R 0%R).

(** A two-stage rocket with a payload, moving along [x]: 180 kg at
    [(360, 0, 0)] kg m/s.  The same rocket in binary64. *)
Definition exact_two_stage : Rocket.world R :=
  Rocket.World
    [exact_stage;
     Stage.mk 15%R 5%R 100%R 1%R 0%R (PyFloat 0%R)
              (Vector.Vector 0%R 0%R 0%R)]
    [Payload.mk 10%R]
    (Rocket.mk [0; 1] [] [0] 0.5%R 1%R (Vector.Vector 0%R 0%R 0%R)
       (Vector.Vector 360%R 0%R 0%R) (Vector.Vector 0%R 1%R 0%R) 0%R).

Definition two_stage : Rocket.world float :=
  Rocket.World
    [Stage.mk 100%float 50%float 1000%float 5%float 100%float
              (PyFloat 0%float) (Vector.Vector 0%float 0%float 0%float);
     Stage.mk 15%float 5%float 100%float 1%float 0%float (PyFloat 0%float)
              (Vector.Vector 0%float 0%float 0%float)]
    [Payload.mk 10%float]
    (Rocket.mk [0; 1] [] [0] 0.5%float 1%float
       (Vector.Vector 0%float 0%float 0%float)
       (Vector.Vector 360%float 0%float 0%float)
       (Vector.Vector 0%float 1%float 0%float) 0%float).

(** ** Further vocabulary *)

(** The floats that [Stage.__init__] lets through its test [v < 0.0]:
    those that are not below zero, and NaN. *)
Definition not_below_zero (v : float) : bool :=
  (0 <=? v)%float || is_nan v.

(** [for l in ls: rocket.add_stage(l)], and the same for boosters. *)
Definition add_stages `{Arith F} (ls : list loc) (w : Rocket.world F)
    : Rocket.world F :=
  foldl (λ w l, (Rocket.add_stage (PyObject Stage_class l) w).2) w ls.

Definition add_srbs `{Arith F} (ls : list loc) (w : Rocket.world F)
    : Rocket.world F :=
  foldl (λ w l, (Rocket.add_srb (PyObject Stage_class l) w).2) w ls.

(** The exception a construction or a call ends with, if any. *)
Definition raised_by {A} (o : outcome A) : option exn :=
  match o with Ok _ => None | Raise e => Some e end.

(** The sum of [g] over a list, in exact arithmetic, added up from the
    left as the loops of [total_mass] do. *)
Definition sum_of {A} (g : A → R) (xs : list A) : R :=
  foldl (λ acc x, (acc + g x)%R) 0%R xs.

(** The mass of a stage, [dry_mass + fuel_mass], as [total_mass] adds it. *)
Definition stage_mass (s : Stage.t R) : R :=
  (Stage.dry_mass s + Stage.fuel_mass s)%R.

(** A rocket of 225 kg in exact arithmetic: the stages and the payload of
    [exact_two_stage], and two boosters of 15 kg and 30 kg. *)
Definition exact_boosted : Rocket.world R :=
  Rocket.World
    [exact_stage;
     Stage.mk 15%R 5%R 100%R 1%R 0%R (PyFloat 0%R)
              (Vector.Vector 0%R 0%R 0%R);
     Stage.mk 10%R 5%R 200%R 2%R 0%R (PyFloat 0%R)
              (Vector.Vector 0%R 0%R 0%R);
     Stage.mk 20%R 10%R 300%R 4%R 50%R (PyFloat 0%R)
              (Vector.Vector 0%R 0%R 0%R)]
    [Payload.mk 10%R]
    (Rocket.mk [0; 1] [2; 3] [0] 0.5%R 1%R (Vector.Vector 0%R 0%R 0%R)
       (Vector.Vector 450%R 0%R 0%R) (Vector.Vector 0%R 1%R 0%R) 0%R).

(** ** Binary64 runs, and axes that lean *)

(** What holds of the program in binary64 whatever numpy returns at
    ordinary arguments. *)
Definition for_every_numpy (P : Trig float → Prop) : Prop :=
  ∀ sin_fin cos_fin arccos_fin, P (numpy_trig sin_fin cos_fin arccos_fin).

(** The vector a computation with NaN leaves. *)
Definition nan_vector : Vector.t float := Vector.Vector nan nan nan.


(** Two rockets that do not roll, in exact arithmetic: one with a unit axis
    that leans towards negative [x], one with a unit axis that leans out of
    the x-y plane. *)
Definition exact_leaning : Rocket.world R :=
  Rocket.World [] []
    (Rocket.mk [] [] [] 0.5%R 1%R (Vector.Vector 0%R 0%R 0%R)
       (Vector.Vector 0%R 0%R 0%R)
       (Vector.Vector (-3 / 5)%R (4 / 5)%R 0%R) 0%R).

Definition exact_tilted : Rocket.world R :=
  Rocket.World [] []
    (Rocket.mk [] [] [] 0.5%R 1%R (Vector.Vector 0%R 0%R 0%R)
       (Vector.Vector 0%R 0%R 0%R)
       (Vector.Vector 0%R (4 / 5)%R (3 / 5)%R) 0%R).

(** * Properties *)

(** ** Floats: comparisons that involve NaN *)

Section Binary64.
Import SpecFloat.

Lemma SFcompare_antisym (a b : spec_float) :
  SFcompare b a = CompOpp <$> SFcompare a b.
Proof.
  destruct a as [s1| s1| |s1 m1 e1], b as [s2| s2| |s2 m2 e2]; simpl;
    try reflexivity;
    try (by destruct s1); try (by destruct s2); try (by destruct s1, s2).
  destruct s1, s2; simpl; try reflexivity; f_equal;
    rewrite (BinInt.Z.compare_antisym e2 e1);
    destruct (e2 ?= e1)%Z; simpl; try reflexivity.
  - rewrite CompOpp_involutive. exact (Pos.compare_cont_antisym m2 m1 Eq).
  - symmetry. exact (Pos.compare_cont_antisym m1 m2 Eq).
Qed.

Lemma SFcompare_nan (a b : spec_float) :
  SFcompare a b = None ↔ a = S754_nan ∨ b = S754_nan.
Proof.
  destruct a as [s1| s1| |s1 m1 e1], b as [s2| s2| |s2 m2 e2]; simpl;
    split; intros Hn; try tauto; try discriminate;
    destruct Hn; discriminate.
Qed.

Lemma SFcompare_refl (a : spec_float) :
  a ≠ S754_nan → SFcompare a a = Some Eq.
Proof.
  destruct a as [s| s| |s m e]; simpl; try done.
  - by destruct s.
  - intros _.
    assert (E : PosDef.Pos.compare_cont Eq m m = Eq)
      by exact (Pos.compare_cont_refl m Eq).
    destruct s; rewrite BinInt.Z.compare_refl, E; done.
Qed.

Lemma is_nan_spec (a : float) : is_nan a = true ↔ Prim2SF a = S754_nan.
Proof.
  unfold is_nan. rewrite FloatAxioms.eqb_spec. unfold SFeqb. split.
  - intros Hn. destruct (Prim2SF a) eqn:E; try done;
      by rewrite SFcompare_refl in Hn.
  - intros ->. reflexivity.
Qed.

(** [not (b < a)] says [a <= b], or that one of the two is NaN. *)
Lemma ltb_false_iff (a b : float) :
  (b <? a)%float = false ↔
  (a <=? b)%float = true ∨ is_nan a = true ∨ is_nan b = true.
Proof.
  rewrite FloatAxioms.ltb_spec, FloatAxioms.leb_spec, !is_nan_spec.
  unfold SFltb, SFleb.
  rewrite (SFcompare_antisym (Prim2SF a) (Prim2SF b)).
  pose proof (SFcompare_nan (Prim2SF a) (Prim2SF b)) as Hn.
  destruct (SFcompare (Prim2SF a) (Prim2SF b)) as [[]|]; simpl; split;
    try done; try tauto; intros [|Hx]; try done; apply Hn in Hx; done.
Qed.

(** The test of [Stage.set_throttle], [not (v > 100.0 or v < 0.0)], lets
    through the interval and NaN. *)
Lemma throttle_test_iff (v : float) :
  (100 <? v)%float || (v <? 0)%float = false ↔
  in_throttle_range v = true ∨ is_nan v = true.
Proof.
  unfold in_throttle_range.
  rewrite orb_false_iff, andb_true_iff, !ltb_false_iff.
  assert (is_nan 100 = false ∧ is_nan 0 = false) as [E1 E2] by done.
  rewrite E1, E2. split.
  - intros [[?|[?|?]] [?|[?|?]]]; auto; done.
  - intros [[? ?]|?]; auto.
Qed.
End Binary64.

(** ** Payloads *)

(** The second argument of [Payload(mass, length)] is never read. *)
Lemma Payload_init_length_irrelevant `{Arith F} (mass l1 l2 : pyval F) :
  Payload.__init__ mass l1 = Payload.__init__ mass l2.
Proof. reflexivity. Qed.

(** C10.  For a float [mass > 0.0], [Payload(mass, length)] is the payload
    whose only attribute is [mass], whatever [length] is: two constructions
    with the same mass and different lengths give identical payloads. *)
Theorem Payload_init_ignores_length `{Arith F}
    (mass : F) (length1 length2 : pyval F) :
  (mass >? f0)%num = true →
  Payload.__init__ (PyFloat mass) length1 = Ok (Payload.mk mass) ∧
  Payload.__init__ (PyFloat mass) length2 = Ok (Payload.mk mass).
Proof. intros Hpos. unfold Payload.__init__. by rewrite Hpos. Qed.

Lemma Payload_init_ignores_length_witness :
  Payload.__init__ (PyFloat 2.5%float) (PyFloat 1%float)
    = Ok (Payload.mk 2.5%float) ∧
  Payload.__init__ (PyFloat 2.5%float) (PyStr "long")
    = Ok (Payload.mk 2.5%float).
Proof.
  apply (Payload_init_ignores_length (F := float) 2.5%float). reflexivity.
Defined.

(** C9, as stated, fails: an infinite mass is not a finite value, and it
    is accepted and stored; and a positive finite integer is rejected, as
    is every value that is not a float. *)
Lemma Payload_init_accepts_infinity :
  (positive_finite (PyFloat infinity) = false ∧
   Payload.__init__ (PyFloat infinity) (PyFloat 1%float)
     = Ok (Payload.mk infinity)) ∧
  (positive_finite (PyInt 5) = true ∧
   Payload.__init__ (F := float) (PyInt 5) (PyFloat 1%float)
     = Raise TypeError).
Proof. repeat split; reflexivity. Qed.

(** C9, amended.  [Payload(mass, length)] succeeds exactly when [mass] is a
    float with [mass > 0.0], and then stores it; every other mass raises
    [TypeError] (not a float) or [ValueError] (a float that is not above
    zero: zero, a negative number, minus infinity, NaN), both
    [InvalidArgument].  The float [+infinity] is above zero and stored. *)
Theorem Payload_init_spec (mass length : pyval float) :
  (∀ p, Payload.__init__ mass length = Ok p ↔
        ∃ m, mass = PyFloat m ∧ (0 <? m)%float = true ∧ p = Payload.mk m) ∧
  (∀ e, Payload.__init__ mass length = Raise e →
        InvalidArgument e = true ∧
        (e = TypeError ↔ ∀ m, mass ≠ PyFloat m)) ∧
  Payload.__init__ (PyFloat infinity) length = Ok (Payload.mk infinity) ∧
  Payload.__init__ (PyFloat nan) length = Raise ValueError ∧
  Payload.__init__ (PyFloat neg_infinity) length = Raise ValueError ∧
  Payload.__init__ (PyFloat 0%float) length = Raise ValueError.
Proof.
  split; [|split; [|done]].
  - intros p. unfold Payload.__init__. split.
    + destruct mass as [m| | | | | |]; try done. simpl.
      destruct (0 <? m)%float eqn:E; [|done].
      intros [= <-]. by exists m.
    + intros (m & -> & E & ->). simpl. by rewrite E.
  - intros e. unfold Payload.__init__.
    destruct mass as [m| | | | | |]; simpl;
      try (intros [= <-]; split; [done|]; split; [intros _ m|]; done).
    destruct (0 <? m)%float; [done|].
    intros [= <-]. split; [done|]. split; [done|].
    intros Hm. by destruct (Hm m).
Qed.

(** ** Stages *)

(** The scenario of the specification: the stage built from its options,
    at full throttle, burning for two seconds. *)
Example Stage_scenario :
  Stage.__init__ scenario_options = Ok scenario_stage ∧
  let s := (Stage.set_throttle (PyFloat 100%float) scenario_stage).2 in
  Stage.current_thrust s = 1000%float ∧
  Stage.current_fuel_consumption s = 5%float ∧
  Stage.fuel_mass (Stage.update_mass 2%float s) = 40%float.
Proof. vm_compute. done. Qed.

(** What [Stage(options)] checks and what it does not.  Construction
    succeeds exactly when each of [dry_mass], [fuel_mass],
    [max_thrust_mag] and [max_dmdt], read with the default [0.0], is a
    float that is not below zero; the stage then holds these four values,
    throttle 0, the zero axis, and [length] as it was given. *)
Lemma Stage_init_spec `{Arith F} (options : gmap string (pyval F))
    (s : Stage.t F) :
  Stage.__init__ options = Ok s ↔
  Stage.checked (Stage.option_or_zero options "dry_mass")
    = Ok (Stage.dry_mass s) ∧
  Stage.checked (Stage.option_or_zero options "fuel_mass")
    = Ok (Stage.fuel_mass s) ∧
  Stage.checked (Stage.option_or_zero options "max_thrust_mag")
    = Ok (Stage.max_thrust_mag s) ∧
  Stage.checked (Stage.option_or_zero options "max_dmdt")
    = Ok (Stage.max_dmdt s) ∧
  Stage.throttle s = f0 ∧
  Stage.length s = Stage.option_or_zero options "length" ∧
  Stage.axis s = Vector.Vector f0 f0 f0.
Proof.
  unfold Stage.__init__.
  destruct (Stage.checked (Stage.option_or_zero options "dry_mass"));
    simpl; [|intuition discriminate].
  destruct (Stage.checked (Stage.option_or_zero options "fuel_mass"));
    simpl; [|intuition discriminate].
  destruct (Stage.checked (Stage.option_or_zero options "max_thrust_mag"));
    simpl; [|intuition discriminate].
  destruct (Stage.checked (Stage.option_or_zero options "max_dmdt"));
    simpl; [|intuition discriminate].
  destruct s; simpl. split.
  - intros [= -> -> -> -> <- <- <-]. done.
  - intros ([= ->] & [= ->] & [= ->] & [= ->] & -> & -> & ->). done.
Qed.

(** A failed construction is an [InvalidArgument]. *)
Lemma Stage_init_raises `{Arith F} (options : gmap string (pyval F)) e :
  Stage.__init__ options = Raise e → InvalidArgument e = true.
Proof.
  assert (Hc : ∀ v e', Stage.checked v = Raise e' → InvalidArgument e' = true).
  { intros [a| | | | | |] e'; simpl; try (by intros [= <-]).
    destruct (a <? f0)%num; [by intros [= <-]|done]. }
  unfold Stage.__init__.
  destruct (Stage.checked (Stage.option_or_zero options "dry_mass")) eqn:E1;
    simpl; [|intros [= <-]; eauto].
  destruct (Stage.checked (Stage.option_or_zero options "fuel_mass")) eqn:E2;
    simpl; [|intros [= <-]; eauto].
  destruct (Stage.checked (Stage.option_or_zero options "max_thrust_mag"))
    eqn:E3; simpl; [|intros [= <-]; eauto].
  destruct (Stage.checked (Stage.option_or_zero options "max_dmdt")) eqn:E4;
    simpl; [done|intros [= <-]; eauto].
Qed.

(** C3, the part the code misses.  [Stage(options)] checks four of the
    five options and stores [length] as it is given: a negative length,
    and a length that is no number at all, give a stage, where the same
    values for [dry_mass] raise [ValueError] and [TypeError]. *)
Theorem Stage_init_length_unchecked :
  Stage.__init__ {[ "length" := PyFloat (-1)%float ]}
    = Ok (Stage.mk 0%float 0%float 0%float 0%float 0%float
            (PyFloat (-1)%float) (Vector.Vector 0%float 0%float 0%float)) ∧
  Stage.__init__ (F := float) {[ "length" := PyStr "long" ]}
    = Ok (Stage.mk 0%float 0%float 0%float 0%float 0%float
            (PyStr "long") (Vector.Vector 0%float 0%float 0%float)) ∧
  Stage.__init__ {[ "dry_mass" := PyFloat (-1)%float ]} = Raise ValueError ∧
  Stage.__init__ (F := float) {[ "dry_mass" := PyStr "long" ]}
    = Raise TypeError.
Proof. vm_compute. done. Qed.

(** What [set_throttle] accepts.  The floats that are neither above
    [100.0] nor below [0.0] are those of the closed interval
    [[0.0, 100.0]], and NaN: they become the throttle.  Every other float
    raises [ValueError], every value that is not a float [TypeError], and
    the stage is then unchanged. *)
Lemma Stage_set_throttle_spec (throttle : pyval float)
    (self : Stage.t float) :
  match throttle with
  | PyFloat v =>
      if in_throttle_range v || is_nan v
      then Stage.set_throttle throttle self
             = (Ok (), Stage.with_throttle v self)
      else Stage.set_throttle throttle self = (Raise ValueError, self)
  | _ => Stage.set_throttle throttle self = (Raise TypeError, self)
  end.
Proof.
  destruct throttle as [v| | | | | |]; try reflexivity.
  unfold Stage.set_throttle. simpl.
  pose proof (throttle_test_iff v) as Hv.
  destruct ((100 <? v)%float || (v <? 0)%float).
  - destruct (in_throttle_range v || is_nan v) eqn:E; [|done].
    apply orb_true_iff in E. apply Hv in E. done.
  - assert (in_throttle_range v || is_nan v = true) as ->; [|done].
    apply orb_true_iff, Hv. done.
Qed.

(** The two rejected values the specification names, the ends of the
    interval, and an integer inside it. *)
Example Stage_set_throttle_bounds :
  (Stage.set_throttle (PyFloat (-0.1)%float) scenario_stage).1
    = Raise ValueError ∧
  (Stage.set_throttle (PyFloat 100.1%float) scenario_stage).1
    = Raise ValueError ∧
  (Stage.set_throttle (PyFloat 0%float) scenario_stage).1 = Ok () ∧
  (Stage.set_throttle (PyFloat 100%float) scenario_stage).1 = Ok () ∧
  (Stage.set_throttle (PyInt 50) scenario_stage).1 = Raise TypeError.
Proof. vm_compute. done. Qed.

(** C6, the case the code misses.  NaN lies outside [[0.0, 100.0]];
    neither [nan > 100.0] nor [nan < 0.0] holds, so that [set_throttle]
    makes it the throttle of the stage.  [Rocket.adjust_throttle], which
    tests [throttle >= 0.0 and throttle <= 100.0], raises [ValueError] on
    the same value. *)
Theorem Stage_set_throttle_accepts_nan :
  in_throttle_range nan = false ∧
  Stage.set_throttle (PyFloat nan) scenario_stage
    = (Ok (), Stage.with_throttle nan scenario_stage) ∧
  Stage.throttle (Stage.set_throttle (PyFloat nan) scenario_stage).2 = nan ∧
  Rocket.adjust_throttle (PyFloat nan) two_stage
    = (Raise ValueError, two_stage).
Proof. repeat split; reflexivity. Qed.

(** ** Rockets: the update of the masses *)

Section Burn.
Context {F : Type} `{Arith F}.
Import Rocket.

Lemma call_stage_modify (l : loc) (f : Stage.t F → Stage.t F) (w : world F) :
  call_stage l (modify f) w
  = (Ok (), World (stored f (stage_objs w) l) (payload_objs w) (self w)).
Proof. reflexivity. Qed.

Lemma for_each_call_stage_modify (ls : list loc) (f : Stage.t F → Stage.t F)
    (w : world F) :
  for_each ls (λ l, call_stage l (modify f)) w
  = (Ok (), World (foldl (stored f) (stage_objs w) ls)
                  (payload_objs w) (self w)).
Proof.
  revert w. induction ls as [|l ls IH]; intros w; simpl.
  - by destruct w.
  - unfold mbind, Py_bind, bind. rewrite call_stage_modify. by rewrite IH.
Qed.

Lemma foldl_stored_length (f : Stage.t F → Stage.t F) (ls : list loc)
    (objs : list (Stage.t F)) :
  length (foldl (stored f) objs ls) = length objs.
Proof.
  revert objs. induction ls as [|l ls IH]; intros objs; simpl; [done|].
  rewrite IH. apply length_insert.
Qed.

(** After the calls, an object has been through [f] once for each time it
    was listed. *)
Lemma foldl_stored_lookup (f : Stage.t F → Stage.t F) (ls : list loc)
    (objs : list (Stage.t F)) (l : loc) :
  l < length objs →
  foldl (stored f) objs ls !!! l = Nat.iter (occurrences l ls) f (objs !!! l).
Proof.
  revert objs. induction ls as [|a ls IH]; intros objs Hl; simpl; [done|].
  rewrite IH by (unfold stored; by rewrite length_insert).
  unfold occurrences, stored. rewrite filter_cons.
  destruct (decide (a = l)) as [->|Hne]; simpl.
  - rewrite list_lookup_total_insert_eq by done.
    by rewrite Nat.iter_swap.
  - by rewrite list_lookup_total_insert_ne.
Qed.

Lemma occurrences_not_elem (l : loc) (ls : list loc) :
  l ∉ ls → occurrences l ls = 0.
Proof.
  unfold occurrences. induction ls as [|a ls IH]; [done|].
  intros [Hne Hl]%not_elem_of_cons. rewrite filter_cons.
  destruct (decide (a = l)) as [->|_]; [done|]. by apply IH.
Qed.

Lemma lookup_total_same_length (objs objs' : list (Stage.t F)) (l : loc) :
  length objs' = length objs → length objs ≤ l → objs' !!! l = objs !!! l.
Proof.
  intros Hlen Hl. rewrite !list_lookup_total_alt.
  rewrite (lookup_ge_None_2 objs) by done.
  by rewrite (lookup_ge_None_2 objs') by lia.
Qed.
End Burn.

Section Update_total_mass.
Context {F : Type} `{Arith F}.
Import Rocket.

(** C4, amended.  [update_total_mass(dt)] raises [TypeError] unless [dt] is
    a float and [ValueError] unless [dt > 0.0], changing nothing.  With
    [dt > 0.0] it succeeds; the rocket, its lists and its payloads are as
    before, and each stage object has been through [update_mass(dt)] once
    for each time it is listed as the active stage or as a booster.  A
    reserve stage (index 1 or more) keeps its [fuel_mass] when it is not
    the same object as the active stage or a booster. *)
Theorem update_total_mass_spec (time_step : pyval F) (w : world F) :
  match time_step with
  | PyFloat dt =>
      if (dt >? f0)%num then
        ∃ w', update_total_mass time_step w = (Ok (), w') ∧
          self w' = self w ∧
          payload_objs w' = payload_objs w ∧
          (∀ l, l < length (stage_objs w) →
             stage_at w' l
             = Nat.iter (occurrences l (burning (self w)))
                        (Stage.update_mass dt) (stage_at w l)) ∧
          (∀ i l, 1 ≤ i → stages (self w) !! i = Some l →
             l ∉ burning (self w) →
             Stage.fuel_mass (stage_at w' l) = Stage.fuel_mass (stage_at w l))
      else update_total_mass time_step w = (Raise ValueError, w)
  | _ => update_total_mass time_step w = (Raise TypeError, w)
  end.
Proof.
  destruct time_step as [dt| | | | | |]; try reflexivity.
  unfold update_total_mass. destruct (dt >? f0)%num; [|reflexivity].
  pose (objs' := foldl (stored (Stage.update_mass dt)) (stage_objs w)
                       (burning (self w))).
  assert (Hrun :
    (stages ← get (stages ∘ self);
     match stages with
     | stage :: _ => call_stage stage (modify (Stage.update_mass dt))
     | [] => ret ()
     end;;
     srbs ← get (srbs ∘ self);
     for_each srbs (λ srb, call_stage srb (modify (Stage.update_mass dt)))) w
    = (Ok (), World objs' (payload_objs w) (self w))).
  { unfold mbind, Py_bind, bind, get, objs', burning. simpl.
    destruct (stages (self w)) as [|stage rest]; simpl.
    - unfold ret. by rewrite for_each_call_stage_modify.
    - by rewrite for_each_call_stage_modify. }
  exists (World objs' (payload_objs w) (self w)).
  assert (Hlookup : ∀ l, l < length (stage_objs w) →
    objs' !!! l = Nat.iter (occurrences l (burning (self w)))
                           (Stage.update_mass dt) (stage_objs w !!! l)).
  { intros l Hl. by apply foldl_stored_lookup. }
  split; [exact Hrun|]. split; [done|]. split; [done|].
  split; [exact Hlookup|].
  intros i l _ _ Hl. unfold stage_at. simpl.
  destruct (decide (l < length (stage_objs w))) as [Hlt|Hge].
  - rewrite Hlookup by done. by rewrite occurrences_not_elem.
  - f_equal. apply lookup_total_same_length; [|lia].
    apply foldl_stored_length.
Qed.
End Update_total_mass.

(** C4, as stated, fails: a stage object added twice is the active stage
    and the reserve stage at index 1, and burning the active stage takes
    the fuel of the reserve stage from 50.0 to 40.0. *)
Lemma update_total_mass_burns_aliased_reserve :
  let w := (add_same_stage_twice launch_pad).2 in
  let w' := (Rocket.update_total_mass (PyFloat 2%float) w).2 in
  Rocket.stages (Rocket.self w) = [0; 0] ∧
  Stage.fuel_mass (Rocket.stage_at w 0) = 50%float ∧
  Stage.fuel_mass (Rocket.stage_at w' 0) = 40%float.
Proof. vm_compute. done. Qed.

(** An integer time step is rejected, positive or not. *)
Example update_total_mass_rejects_int :
  Rocket.update_total_mass (PyInt 1) launch_pad = (Raise TypeError, launch_pad).
Proof. reflexivity. Qed.

(** ** Rockets: separation *)

(** C2, as stated, fails: with no booster, [separate_srbs] returns. *)
Lemma separate_srbs_without_boosters :
  Rocket.srbs (Rocket.self payload_only) = [] ∧
  Rocket.separate_srbs payload_only = (Ok (), payload_only).
Proof. vm_compute. done. Qed.

Section Separation.
Context {F : Type} `{Arith F}.
Import Rocket.

Lemma truediv_by_zero (v : Vector.t F) (k : F) :
  (k == f0)%num = true → Vector.truediv v k = Raise ZeroDivisionError.
Proof. intros Hk. unfold Vector.truediv, py_div. by rewrite Hk. Qed.

Lemma truediv_by_nonzero (v : Vector.t F) (k : F) :
  (k == f0)%num = false →
  Vector.truediv v k
  = Ok (Vector.Vector (Vector.x v / k) (Vector.y v / k) (Vector.z v / k))%num.
Proof. intros Hk. unfold Vector.truediv, py_div. by rewrite Hk. Qed.

(** C2, amended.  With no stage, [separate_active_stage] fails and changes
    nothing: [momentum/total_mass] raises when the total mass is zero, and
    [stages.pop(0)] raises [IndexError] otherwise.  With no booster,
    [separate_srbs] fails only in the first way; when the total mass is
    not zero it returns, the boosters still empty and the momentum set to
    [total_mass * (momentum / total_mass)]. *)
Theorem separate_nothing (w : world F) :
  (stages (self w) = [] →
     ∃ e, separate_active_stage w = (Raise e, w) ∧
          PreconditionViolation e = true) ∧
  (srbs (self w) = [] →
     if (total_mass w == f0)%num
     then separate_srbs w = (Raise ZeroDivisionError, w)
     else ∃ velocity,
       Vector.truediv (momentum (self w)) (total_mass w) = Ok velocity ∧
       separate_srbs w
       = (Ok (), on_self (with_momentum (Vector.rmul (total_mass w) velocity))
                         w)).
Proof.
  split.
  - intros Hs. unfold separate_active_stage, mbind, Py_bind, bind, get, lift.
    simpl. destruct (total_mass w == f0)%num eqn:Hm.
    + rewrite truediv_by_zero by done. by exists ZeroDivisionError.
    + rewrite truediv_by_nonzero by done. unfold pop_active_stage.
      rewrite Hs. by exists IndexError.
  - intros Hs. unfold separate_srbs, mbind, Py_bind, bind, get, lift. simpl.
    destruct (total_mass w == f0)%num eqn:Hm.
    + by rewrite truediv_by_zero.
    + rewrite truediv_by_nonzero by done. eexists. split; [done|].
      assert (on_self (with_srbs []) w = w) as ->; [|done].
      destruct w as [so po [? ? ? ? ? ? ? ? ?]]. simpl in Hs. by subst.
Qed.
End Separation.

(** The separation of the active stage in binary64, on round numbers:
    180 kg at [(360, 0, 0)] kg m/s lose a stage of 150 kg and keep the
    velocity [(2, 0, 0)] m/s. *)
Example separate_active_stage_scenario :
  let w' := (Rocket.separate_active_stage two_stage).2 in
  Rocket.total_mass two_stage = 180%float ∧
  (Rocket.separate_active_stage two_stage).1 = Ok () ∧
  Rocket.stages (Rocket.self w') = [1] ∧
  Rocket.total_mass w' = 30%float ∧
  Rocket.momentum (Rocket.self w') = Vector.Vector 60%float 0%float 0%float.
Proof. vm_compute. done. Qed.

(** The booster scenario of the specification: two ignited boosters push
    with 400 N along the axis, and their separation empties [srbs]. *)
Example booster_scenario :
  let w := (add_and_ignite_boosters booster_pad).2 in
  Rocket.srb_thrust w = Vector.Vector 0%float 400%float 0%float ∧
  Rocket.total_thrust w = Vector.Vector 0%float 400%float 0%float ∧
  (Rocket.separate_srbs w).1 = Ok () ∧
  Rocket.srbs (Rocket.self (Rocket.separate_srbs w).2) = [].
Proof. vm_compute. done. Qed.

(** ** Exact arithmetic: momentum and mass *)

Section Exact.
Import Rocket.
Local Open Scope R_scope.

Lemma exact_truediv (v : Vector.t R) (k : R) :
  k ≠ 0 →
  Vector.truediv v k
  = Ok (Vector.Vector (Vector.x v / k) (Vector.y v / k) (Vector.z v / k)).
Proof.
  intros Hk. rewrite truediv_by_nonzero; [reflexivity|].
  simpl. by apply bool_decide_eq_false.
Qed.



(** [update_mass] writes [fuel_mass] only. *)
Lemma update_mass_iter_rates (s : Stage.t R) (dt : R) (n : nat) :
  Stage.max_dmdt (Nat.iter n (Stage.update_mass dt) s) = Stage.max_dmdt s ∧
  Stage.throttle (Nat.iter n (Stage.update_mass dt) s) = Stage.throttle s.
Proof. induction n as [|n IH]; simpl; done. Qed.

(** C5, amended.  In exact arithmetic, for a stage with [throttle > 0] and
    [max_dmdt > 0] and for [dt > 0], each call of [update_mass(dt)]
    strictly decreases [fuel_mass], and [n] calls decrease it by
    [n * max_dmdt * throttle/100 * dt] in all. *)
Theorem update_mass_linear (s : Stage.t R) (dt : R) (n : nat) :
  Stage.throttle s > 0 → Stage.max_dmdt s > 0 → dt > 0 →
  (∀ k, Stage.fuel_mass (Nat.iter (S k) (Stage.update_mass dt) s)
        < Stage.fuel_mass (Nat.iter k (Stage.update_mass dt) s)) ∧
  Stage.fuel_mass s - Stage.fuel_mass (Nat.iter n (Stage.update_mass dt) s)
  = INR n * Stage.max_dmdt s * Stage.throttle s / 100 * dt.
Proof.
  intros Ht Hd Hdt.
  assert (Hrate : 0 < Stage.max_dmdt s * Stage.throttle s / 100 * dt).
  { apply Rmult_lt_0_compat; [|done].
    apply Rdiv_lt_0_compat; [|lra]. by apply Rmult_lt_0_compat. }
  split.
  - intros k. destruct (update_mass_iter_rates s dt k) as [Ed Et].
    simpl. rewrite Ed, Et. lra.
  - induction n as [|n IH].
    + simpl. lra.
    + destruct (update_mass_iter_rates s dt n) as [Ed Et].
      rewrite S_INR. simpl. rewrite Ed, Et. simpl in IH. lra.
Qed.

Lemma update_mass_linear_witness :
  (∀ k, Stage.fuel_mass (Nat.iter (S k) (Stage.update_mass 2) exact_stage)
        < Stage.fuel_mass (Nat.iter k (Stage.update_mass 2) exact_stage)) ∧
  Stage.fuel_mass exact_stage
  - Stage.fuel_mass (Nat.iter 3 (Stage.update_mass 2) exact_stage)
  = INR 3 * Stage.max_dmdt exact_stage * Stage.throttle exact_stage / 100 * 2.
Proof.
  apply (update_mass_linear exact_stage 2 3); simpl; lra.
Defined.
End Exact.

(** Both stages are built by the constructor and [set_throttle]. *)
Example heavy_and_light_stage_built :
  (s ← Stage.__init__ {[ "fuel_mass" := PyFloat 18014398509481984%float;
                         "max_dmdt" := PyFloat 1%float ]};
   Ok (Stage.set_throttle (PyFloat 100%float) s))
  = Ok (Ok (), heavy_stage) ∧
  (s ← Stage.__init__ {[ "fuel_mass" := PyFloat 1%float;
                         "max_dmdt" := PyFloat 0.1%float ]};
   Ok (Stage.set_throttle (PyFloat 100%float) s))
  = Ok (Ok (), light_stage).
Proof. vm_compute. done. Qed.

(** C5, as stated, fails in binary64.  One second at 1 kg/s leaves
    [2.0**54] kg of fuel as they are, the difference being rounded away;
    and three steps of 0.1 kg take 0.29999999999999993 kg from 1.0 kg,
    which is not [3 * 0.1 * 100.0/100 * 1.0 = 0.30000000000000004]. *)
Lemma update_mass_rounds :
  (0 <? Stage.throttle heavy_stage)%float = true ∧
  (0 <? Stage.max_dmdt heavy_stage)%float = true ∧
  (0 <? 1)%float = true ∧
  Stage.fuel_mass (Stage.update_mass 1%float heavy_stage)
    = Stage.fuel_mass heavy_stage ∧
  (Stage.fuel_mass light_stage
   - Stage.fuel_mass (Nat.iter 3 (Stage.update_mass 1%float) light_stage)
   =? 3 * Stage.max_dmdt light_stage * Stage.throttle light_stage / 100 * 1)%float
  = false.
Proof. vm_compute. done. Qed.

(** ** Exact arithmetic: the axis *)

Section Axis.
Import Rocket.
Local Open Scope R_scope.

Lemma norm_sin_cos (theta : R) :
  Vector.norm (Vector.Vector (sin theta) (cos theta) 0) = 1.
Proof.
  unfold Vector.norm, Vector.dot. simpl.
  replace (sin theta * sin theta + cos theta * cos theta + 0 * 0)
    with ((sin theta)² + (cos theta)²) by (unfold Rsqr; ring).
  rewrite sin2_cos2. apply sqrt_1.
Qed.

(** [hat] leaves the vector [(sin theta, cos theta, 0)] as it is. *)
Lemma hat_sin_cos (theta : R) :
  Vector.hat (Vector.Vector (sin theta) (cos theta) 0)
  = Ok (Vector.Vector (sin theta) (cos theta) 0).
Proof.
  unfold Vector.hat. rewrite norm_sin_cos.
  rewrite exact_truediv by lra. simpl. f_equal. f_equal; field.
Qed.

Lemma set_attitude_exact (time_step : R) (w : world R) :
  set_attitude time_step w
  = (Ok (),
     on_self (with_axis
       (Vector.Vector (sin (attitude w + roll_rate (self w) * time_step))
                      (cos (attitude w + roll_rate (self w) * time_step)) 0))
       w).
Proof.
  unfold set_attitude, mbind, Py_bind, bind, get, lift. simpl.
  by rewrite hat_sin_cos.
Qed.

(** The argument of [arccos] in [attitude]: inside [-1, 1] for a unit
    axis. *)
Lemma dot_up_range (v : Vector.t R) :
  unit_vector v → -1 <= Vector.dot v (Vector.Vector 0 1 0) <= 1.
Proof.
  unfold unit_vector, Vector.norm, Vector.dot. simpl. intros Hn.
  assert (Hd : Vector.x v * Vector.x v + Vector.y v * Vector.y v
               + Vector.z v * Vector.z v = 1).
  { apply sqrt_lem_0 in Hn; [lra| |lra]. 
    pose proof (Rle_0_sqr (Vector.x v)). pose proof (Rle_0_sqr (Vector.y v)).
    pose proof (Rle_0_sqr (Vector.z v)). unfold Rsqr in *. lra. }
  pose proof (Rle_0_sqr (Vector.x v)). pose proof (Rle_0_sqr (Vector.z v)).
  unfold Rsqr in *. split; nra.
Qed.

(** A method of a stage object writes the stage, not the rocket. *)
Lemma call_stage_self {A} (l : loc) (m : Py (Stage.t R) A) (w : world R) :
  self (call_stage l m w).2 = self w.
Proof. unfold call_stage. by destruct (m _). Qed.

Lemma for_each_self (ls : list loc) (body : loc → Py (world R) unit)
    (w : world R) :
  (∀ l w', self (body l w').2 = self w') →
  self (for_each ls body w).2 = self w.
Proof.
  intros Hbody. revert w. induction ls as [|l ls IH]; intros w; [done|].
  simpl. unfold mbind, Py_bind, bind.
  specialize (Hbody l w). destruct (body l w) as [[[]|e] w1]; simpl in *.
  - by rewrite IH.
  - done.
Qed.

(** Every method but [set_attitude] leaves the axis as it is. *)
Lemma run_axis (c : call R) (w : world R) :
  (∀ time_step, c ≠ Set_attitude time_step) →
  axis (self (run c w).2) = axis (self w).
Proof.
  intros Hc. destruct c as [v|v|v|v| | |dt|v|v|]; simpl.
  - unfold add_stage. by destruct v as [| | | | | |[] ?].
  - unfold add_payload. by destruct v as [| | | | | |[] ?].
  - unfold add_srb. by destruct v as [| | | | | |[] ?].
  - destruct v as [dt| | | | | |]; try done.
    unfold update_total_mass. destruct (dt >? f0)%num; [|done].
    unfold mbind, Py_bind, bind, get. simpl.
    destruct (stages (self w)) as [|stage rest]; simpl.
    + rewrite for_each_self; [done|]. intros. apply call_stage_self.
    + rewrite for_each_self; [done|]. intros. apply call_stage_self.
  - unfold separate_active_stage, mbind, Py_bind, bind, get, lift. simpl.
    destruct (Vector.truediv _ _); [|done]. unfold pop_active_stage.
    by destruct (stages (self w)).
  - unfold separate_srbs, mbind, Py_bind, bind, get, lift. simpl.
    by destruct (Vector.truediv _ _).
  - by destruct (Hc dt).
  - unfold set_roll_rate. by destruct v.
  - unfold adjust_throttle, mbind, Py_bind, bind, get. simpl.
    destruct (stages (self w)) as [|stage rest]; [done|].
    destruct v as [x| | | | | |]; try done.
    case_match; [|done]. by rewrite call_stage_self.
  - unfold ignite_srbs, mbind, Py_bind, bind, get. simpl.
    rewrite for_each_self; [done|]. intros. apply call_stage_self.
Qed.

Lemma run_unit_axis (c : call R) (w : world R) :
  unit_vector (axis (self w)) → unit_vector (axis (self (run c w).2)).
Proof.
  intros Hu. destruct c as [v|v|v|v| | |dt|v|v|];
    try (rewrite run_axis; [done|]; intros; done).
  simpl. rewrite set_attitude_exact. simpl. apply norm_sin_cos.
Qed.

Lemma after_unit_axis (calls : list (call R)) (w : world R) :
  unit_vector (axis (self w)) → unit_vector (axis (self (after calls w))).
Proof.
  unfold after. revert w. induction calls as [|c calls IH]; intros w Hu.
  - done.
  - simpl. apply IH. by apply run_unit_axis.
Qed.

Lemma Rocket_init_axis (pos coeff_drag cross_sec_area : pyval R)
    (r : Rocket.t R) :
  Rocket.__init__ pos coeff_drag cross_sec_area = Ok r →
  axis r = Vector.Vector 0 1 0.
Proof.
  unfold Rocket.__init__.
  destruct coeff_drag as [c| | | | | |]; try done. simpl.
  destruct (bool_decide (0 < c)); [|done]. simpl.
  destruct cross_sec_area as [a| | | | | |]; try done. simpl.
  destruct (bool_decide (0 < a)); [|done]. simpl.
  destruct pos as [| | | | |p|]; try done. simpl.
  by intros [= <-].
Qed.

(** C7, amended.  In exact arithmetic the axis of a rocket is always a unit
    vector: it is [(0,1,0)] when the rocket is constructed, and it has
    length one after any sequence of calls of the rocket's methods, on
    any stage and payload objects. *)
Theorem axis_always_unit (pos coeff_drag cross_sec_area : pyval R)
    (r : Rocket.t R) (stage_objs : list (Stage.t R))
    (payload_objs : list (Payload.t R)) (calls : list (call R)) :
  Rocket.__init__ pos coeff_drag cross_sec_area = Ok r →
  axis r = Vector.Vector 0 1 0 ∧
  unit_vector (axis (self (after calls (World stage_objs payload_objs r)))).
Proof.
  intros Hr. apply Rocket_init_axis in Hr. split; [done|].
  apply after_unit_axis. simpl. rewrite Hr.
  unfold unit_vector, Vector.norm, Vector.dot. simpl.
  replace (0 * 0 + 1 * 1 + 0 * 0) with 1 by ring. apply sqrt_1.
Qed.

(** C8, amended.  In exact arithmetic, a rocket whose axis is [(0,1,0)] has
    attitude [0]; and for [dt > 0], after [set_roll_rate(pi/dt)] and
    [set_attitude(dt)] its axis is [(0,-1,0)]. *)
Theorem attitude_round_trip (w : world R) (dt : R) :
  axis (self w) = Vector.Vector 0 1 0 →
  dt > 0 →
  attitude w = 0 ∧
  ∃ w1 w2,
    set_roll_rate (PyFloat (PI / dt)) w = (Ok (), w1) ∧
    set_attitude dt w1 = (Ok (), w2) ∧
    axis (self w2) = Vector.Vector 0 (-1) 0.
Proof.
  intros Ha Hdt.
  assert (Hatt : ∀ w', axis (self w') = Vector.Vector 0 1 0 → attitude w' = 0).
  { intros w' Ha'. unfold attitude. rewrite Ha'. unfold Vector.dot. simpl.
    replace (0 * 0 + 1 * 1 + 0 * 0) with 1 by ring. apply acos_1. }
  split; [by apply Hatt|].
  eexists _, _. split; [reflexivity|]. split.
  - apply set_attitude_exact.
  - rewrite Hatt by exact Ha. simpl.
    replace (0 + PI / dt * dt) with PI by (field; lra).
    by rewrite sin_PI, cos_PI.
Qed.

Lemma axis_always_unit_witness :
  axis exact_rocket = Vector.Vector 0 1 0 ∧
  unit_vector
    (axis (self (after [Set_roll_rate (PyFloat 1); Set_attitude 2;
                        Separate_srbs; Set_attitude 3]
                       (World [] [] exact_rocket)))).
Proof.
  apply (axis_always_unit (PyVector (Vector.Vector 0 0 0))
                          (PyFloat 0.5) (PyFloat 1)).
  unfold Rocket.__init__. simpl.
  rewrite !bool_decide_eq_true_2 by lra. reflexivity.
Defined.

Lemma attitude_round_trip_witness :
  attitude (World [] [] exact_rocket) = 0 ∧
  ∃ w1 w2,
    set_roll_rate (PyFloat (PI / 2)) (World [] [] exact_rocket)
      = (Ok (), w1) ∧
    set_attitude 2 w1 = (Ok (), w2) ∧
    axis (self w2) = Vector.Vector 0 (-1) 0.
Proof.
  apply (attitude_round_trip (World [] [] exact_rocket) 2).
  - reflexivity.
  - lra.
Defined.
End Axis.

(** ** Binary64: overflow and NaN *)


Section Not_finite.
Import SpecFloat Rocket.

Lemma add_nan_r (a : float) : (a + nan)%float = nan.
Proof.
  apply Prim2SF_inj. rewrite FloatAxioms.add_spec.
  change (Prim2SF nan) with S754_nan.
  by destruct (Prim2SF a).
Qed.

Lemma add_nan_l (a : float) : (nan + a)%float = nan.
Proof.
  apply Prim2SF_inj. rewrite FloatAxioms.add_spec.
  change (Prim2SF nan) with S754_nan. reflexivity.
Qed.

(** A sum with [inf] is [inf], or NaN when the other term is [-inf] or
    NaN. *)
Lemma add_infinity_r (a : float) :
  (a + infinity)%float = infinity ∨ (a + infinity)%float = nan.
Proof.
  assert (Hsf : Prim2SF (a + infinity) = S754_infinity false ∨
                Prim2SF (a + infinity) = S754_nan).
  { rewrite FloatAxioms.add_spec.
    change (Prim2SF infinity) with (S754_infinity false).
    destruct (Prim2SF a) as [s|[]| |s m e]; simpl; auto. }
  destruct Hsf as [Hi|Hn]; [left|right]; apply Prim2SF_inj;
    by rewrite ?Hi, ?Hn.
Qed.

(** With an angle that is not finite, [np.sin] and [np.cos] are NaN, and
    so are the three components of the normalized vector: its length
    [sqrt(nan)] is NaN, which is not [0.0], and [0.0/nan] is NaN. *)
Lemma set_attitude_not_finite (sin_fin cos_fin arccos_fin : float → float)
    (time_step : float) (w : world float) :
  let numpy := numpy_trig sin_fin cos_fin arccos_fin in
  is_finite (@attitude float binary64 numpy w
             + roll_rate (self w) * time_step)%float = false →
  @set_attitude float binary64 numpy time_step w
  = (Ok (), on_self (with_axis nan_vector) w).
Proof.
  intros numpy Hnf.
  unfold set_attitude, mbind, Py_bind, bind, get, lift. simpl.
  simpl in Hnf. rewrite Hnf. reflexivity.
Qed.

(** An axis of NaN has the attitude NaN, and [set_attitude] leaves it an
    axis of NaN, whatever the roll rate and the time step. *)
Lemma set_attitude_nan_axis (sin_fin cos_fin arccos_fin : float → float)
    (time_step : float) (w : world float) :
  axis (self w) = nan_vector →
  @set_attitude float binary64 (numpy_trig sin_fin cos_fin arccos_fin)
    time_step w
  = (Ok (), on_self (with_axis nan_vector) w).
Proof.
  intros Ha. apply set_attitude_not_finite.
  unfold attitude. rewrite Ha.
  assert (E : @np_arccos float (numpy_trig sin_fin cos_fin arccos_fin)
                (Vector.dot nan_vector (Vector.Vector f0 f1 f0)) = nan)
    by reflexivity.
  rewrite E. by rewrite add_nan_l.
Qed.
End Not_finite.

(** C7, as stated, fails in binary64, whatever numpy returns at ordinary
    arguments.  [set_roll_rate] takes any float, NaN too.  On a rocket as
    constructed, [set_roll_rate(nan)] and [set_attitude(1.0)] return and
    leave the axis [(nan, nan, nan)], which has no length of one; and no
    later roll rate and time step bring a unit axis back. *)
Lemma axis_lost_after_nan_roll_rate :
  for_every_numpy (λ numpy,
    let w := Rocket.World [] [] fresh_rocket in
    let w1 := (@run float binary64 numpy (Set_roll_rate (PyFloat nan)) w).2 in
    let w2 := (@run float binary64 numpy (Set_attitude 1%float) w1).2 in
    Rocket.__init__ (PyVector (Vector.Vector 0%float 0%float 0%float))
                    (PyFloat 0.5%float) (PyFloat 1%float) = Ok fresh_rocket ∧
    (@run float binary64 numpy (Set_roll_rate (PyFloat nan)) w).1 = Ok () ∧
    (@run float binary64 numpy (Set_attitude 1%float) w1).1 = Ok () ∧
    w2 = @after float binary64 numpy
           [Set_roll_rate (PyFloat nan); Set_attitude 1%float] w ∧
    Rocket.axis (Rocket.self w2) = nan_vector ∧
    Vector.norm (Rocket.axis (Rocket.self w2)) = nan ∧
    (Vector.norm (Rocket.axis (Rocket.self w2)) =? 1)%float = false ∧
    ∀ roll_rate time_step : float,
      Rocket.axis
        (Rocket.self
           (@after float binary64 numpy
              [Set_roll_rate (PyFloat roll_rate); Set_attitude time_step] w2))
      = nan_vector).
Proof.
  intros sin_fin cos_fin arccos_fin. cbv zeta.
  set (numpy := numpy_trig sin_fin cos_fin arccos_fin).
  set (w := Rocket.World [] [] fresh_rocket).
  set (wr := Rocket.on_self (Rocket.with_roll_rate nan) w).
  set (wn := Rocket.on_self (Rocket.with_axis nan_vector) wr).
  assert (E1 : @run float binary64 numpy (Set_roll_rate (PyFloat nan)) w
               = (Ok (), wr)) by reflexivity.
  assert (E2 : @run float binary64 numpy (Set_attitude 1%float) wr
               = (Ok (), wn)).
  { apply set_attitude_not_finite.
    change (Rocket.roll_rate (Rocket.self wr) * 1)%float with nan.
    by rewrite add_nan_r. }
  assert (E3 : ∀ roll_rate time_step : float,
    @run float binary64 numpy (Set_attitude time_step)
      (Rocket.on_self (Rocket.with_roll_rate roll_rate) wn)
    = (Ok (), Rocket.on_self (Rocket.with_axis nan_vector)
                (Rocket.on_self (Rocket.with_roll_rate roll_rate) wn))).
  { intros roll_rate time_step.
    by apply (set_attitude_nan_axis sin_fin cos_fin arccos_fin). }
  unfold after. cbn [foldl]. rewrite E1. cbn [fst snd]. rewrite E2.
  cbn [fst snd].
  repeat (split; [reflexivity|]).
  intros roll_rate time_step.
  change (@run float binary64 numpy (Set_roll_rate (PyFloat roll_rate)) wn)
    with (Ok (), Rocket.on_self (Rocket.with_roll_rate roll_rate) wn).
  cbn [fst snd]. rewrite E3. reflexivity.
Qed.

(** C8, as stated, fails in binary64, whatever numpy returns at ordinary
    arguments.  For the time step [dt = 1e-308], which is above zero, the
    roll rate [pi/dt] overflows to infinity; [set_roll_rate] takes it, and
    [set_attitude(dt)] returns and leaves the axis [(nan, nan, nan)], not
    [(0, -1, 0)]. *)
Lemma attitude_round_trip_overflows :
  for_every_numpy (λ numpy,
    let dt := 1e-308%float in
    let w := Rocket.World [] [] fresh_rocket in
    let w1 := (Rocket.set_roll_rate (PyFloat (np_pi / dt)%float) w).2 in
    (0 <? dt)%float = true ∧
    Rocket.axis (Rocket.self w) = Vector.Vector 0%float 1%float 0%float ∧
    (np_pi / dt)%float = infinity ∧
    (Rocket.set_roll_rate (PyFloat (np_pi / dt)%float) w).1 = Ok () ∧
    (@Rocket.set_attitude float binary64 numpy dt w1).1 = Ok () ∧
    Rocket.axis
      (Rocket.self (@Rocket.set_attitude float binary64 numpy dt w1).2)
    = nan_vector).
Proof.
  intros sin_fin cos_fin arccos_fin. cbv zeta.
  assert (Epi : (np_pi / 1e-308)%float = infinity) by (vm_compute; done).
  rewrite Epi.
  split; [done|]. split; [done|]. split; [done|]. split; [done|].
  rewrite set_attitude_not_finite; [done|].
  simpl Rocket.roll_rate.
  change (infinity * 1e-308)%float with infinity.
  by destruct (add_infinity_r
                 (@Rocket.attitude float binary64
                    (numpy_trig sin_fin cos_fin arccos_fin)
                    (Rocket.set_roll_rate (PyFloat infinity)
                       (Rocket.World [] [] fresh_rocket)).2)) as [-> | ->].
Qed.

(** * Further properties of the code *)

(** ** Construction *)

Section Construction.
Context {F : Type} `{Arith F}.

(** X1.  [Rocket(pos, coeff_drag, cross_sec_area)] succeeds exactly when
    [coeff_drag] and [cross_sec_area] are floats above [0.0] and [pos] is
    a vector; the rocket then has these three values, no stage, booster or
    payload, zero momentum, the axis [(0,1,0)] and roll rate 0.  Every
    failure is a [TypeError] or a [ValueError]. *)
Theorem Rocket_init_spec (pos coeff_drag cross_sec_area : pyval F) :
  (∀ r, Rocket.__init__ pos coeff_drag cross_sec_area = Ok r ↔
     ∃ c a p, coeff_drag = PyFloat c ∧ (c >? f0)%num = true ∧
              cross_sec_area = PyFloat a ∧ (a >? f0)%num = true ∧
              pos = PyVector p ∧
              r = Rocket.mk [] [] [] c a p (Vector.Vector f0 f0 f0)
                            (Vector.Vector f0 f1 f0) f0) ∧
  (∀ e, Rocket.__init__ pos coeff_drag cross_sec_area = Raise e →
     InvalidArgument e = true).
Proof.
  unfold Rocket.__init__. split.
  - intros r. split.
    + destruct coeff_drag as [c| | | | | |]; try done. simpl.
      destruct (c >? f0)%num eqn:Ec; [|done]. simpl.
      destruct cross_sec_area as [a| | | | | |]; try done. simpl.
      destruct (a >? f0)%num eqn:Ea; [|done]. simpl.
      destruct pos as [| | | | |p|]; try done. simpl.
      intros [= <-]. by exists c, a, p.
    + intros (c & a & p & -> & Ec & -> & Ea & -> & ->). simpl.
      rewrite Ec. simpl. by rewrite Ea.
  - intros e.
    destruct coeff_drag as [c| | | | | |]; simpl; try (by intros [= <-]).
    destruct (c >? f0)%num; simpl; [|by intros [= <-]].
    destruct cross_sec_area as [a| | | | | |]; simpl; try (by intros [= <-]).
    destruct (a >? f0)%num; simpl; [|by intros [= <-]].
    destruct pos as [| | | | |p|]; simpl; by intros [= <-].
Qed.

(** X2.  The checks of [Rocket.__init__] run in the order [coeff_drag],
    [cross_sec_area], [pos], and the first that fails decides the
    exception: a bad [coeff_drag] raises its own error whatever the two
    other arguments are, a bad [cross_sec_area] does so once [coeff_drag]
    is good, and [pos] is looked at last. *)
Theorem Rocket_init_check_order (pos coeff_drag cross_sec_area : pyval F) :
  let raised := raised_by (Rocket.__init__ pos coeff_drag cross_sec_area) in
  ((∀ c, coeff_drag ≠ PyFloat c) → raised = Some TypeError) ∧
  (∀ c, coeff_drag = PyFloat c → (c >? f0)%num = false →
        raised = Some ValueError) ∧
  (∀ c, coeff_drag = PyFloat c → (c >? f0)%num = true →
        (∀ a, cross_sec_area ≠ PyFloat a) → raised = Some TypeError) ∧
  (∀ c a, coeff_drag = PyFloat c → (c >? f0)%num = true →
          cross_sec_area = PyFloat a → (a >? f0)%num = false →
          raised = Some ValueError) ∧
  (∀ c a, coeff_drag = PyFloat c → (c >? f0)%num = true →
          cross_sec_area = PyFloat a → (a >? f0)%num = true →
          (∀ p, pos ≠ PyVector p) → raised = Some TypeError).
Proof.
  unfold Rocket.__init__. repeat split.
  - intros Hc. destruct coeff_drag as [c| | | | | |]; try done.
    by destruct (Hc c).
  - intros c -> Ec. simpl. by rewrite Ec.
  - intros c -> Ec Ha. simpl. rewrite Ec. simpl.
    destruct cross_sec_area as [a| | | | | |]; try done. by destruct (Ha a).
  - intros c a -> Ec -> Ea. simpl. rewrite Ec. simpl. by rewrite Ea.
  - intros c a -> Ec -> Ea Hp. simpl. rewrite Ec. simpl. rewrite Ea. simpl.
    destruct pos as [| | | | |p|]; try done. by destruct (Hp p).
Qed.

(** The checks of [Stage.__init__] run in the order [dry_mass],
    [fuel_mass], [max_thrust_mag], [max_dmdt]: the first of these options
    that fails its check decides the exception, whatever the options
    after it and whatever [length] hold. *)
Lemma Stage_init_check_order (options : gmap string (pyval F)) :
  let dry_mass := Stage.option_or_zero options "dry_mass" in
  let fuel_mass := Stage.option_or_zero options "fuel_mass" in
  let max_thrust_mag := Stage.option_or_zero options "max_thrust_mag" in
  let max_dmdt := Stage.option_or_zero options "max_dmdt" in
  (∀ e, Stage.checked dry_mass = Raise e →
        Stage.__init__ options = Raise e) ∧
  (∀ d e, Stage.checked dry_mass = Ok d →
          Stage.checked fuel_mass = Raise e →
          Stage.__init__ options = Raise e) ∧
  (∀ d f e, Stage.checked dry_mass = Ok d → Stage.checked fuel_mass = Ok f →
            Stage.checked max_thrust_mag = Raise e →
            Stage.__init__ options = Raise e) ∧
  (∀ d f t e, Stage.checked dry_mass = Ok d →
              Stage.checked fuel_mass = Ok f →
              Stage.checked max_thrust_mag = Ok t →
              Stage.checked max_dmdt = Raise e →
              Stage.__init__ options = Raise e).
Proof.
  unfold Stage.__init__. simpl. repeat split.
  - by intros e ->.
  - by intros d e -> ->.
  - by intros d f e -> -> ->.
  - by intros d f t e -> -> -> ->.
Qed.
End Construction.

(** The check of [Stage.__init__] in binary64: [not (v < 0.0)] lets through
    the floats that are not below zero, and NaN. *)
Lemma Stage_checked_binary64 (v : pyval float) (a : float) :
  Stage.checked v = Ok a ↔ v = PyFloat a ∧ not_below_zero a = true.
Proof.
  unfold not_below_zero. rewrite orb_true_iff.
  destruct v as [b| | | | | |]; simpl; try (split; [done|by intros [? _]]).
  pose proof (ltb_false_iff 0%float b) as Hb.
  assert (is_nan 0 = false) as E0 by done. rewrite E0 in Hb.
  destruct (b <? 0)%float.
  - split; [done|]. intros [[= ->] Ha]. destruct Hb as [_ Hb].
    assert (true = false) as Habs by (apply Hb; destruct Ha; auto). done.
  - split.
    + intros [= ->]. split; [done|]. destruct Hb as [Hb _].
      destruct (Hb eq_refl) as [?|[?|?]]; auto; done.
    + by intros [[= ->] _].
Qed.

(** X3.  In binary64, [Stage(options)] succeeds exactly when each of
    [dry_mass], [fuel_mass], [max_thrust_mag] and [max_dmdt], read with the
    default [0.0], is a float that is not below zero, or NaN (the test
    [v < 0.0] is false for NaN, which is therefore stored).  The stage
    holds these four values, throttle 0, the zero axis, and [length] as the
    options give it. *)
Theorem Stage_init_binary64 (options : gmap string (pyval float))
    (s : Stage.t float) :
  Stage.__init__ options = Ok s ↔
  ∃ d f t m,
    Stage.option_or_zero options "dry_mass" = PyFloat d ∧
    not_below_zero d = true ∧
    Stage.option_or_zero options "fuel_mass" = PyFloat f ∧
    not_below_zero f = true ∧
    Stage.option_or_zero options "max_thrust_mag" = PyFloat t ∧
    not_below_zero t = true ∧
    Stage.option_or_zero options "max_dmdt" = PyFloat m ∧
    not_below_zero m = true ∧
    s = Stage.mk d f t m 0%float (Stage.option_or_zero options "length")
                 (Vector.Vector 0%float 0%float 0%float).
Proof.
  rewrite Stage_init_spec, !Stage_checked_binary64. split.
  - intros ((Ed & ?) & (Ef & ?) & (Et & ?) & (Em & ?) & Eth & El & Ea).
    exists (Stage.dry_mass s), (Stage.fuel_mass s), (Stage.max_thrust_mag s),
           (Stage.max_dmdt s).
    repeat (split; [done|]). destruct s. simpl in *. by subst.
  - intros (d & f & t & m & Ed & ? & Ef & ? & Et & ? & Em & ? & ->). done.
Qed.

(** ** Adding stages, boosters and payloads *)

Section Adding.
Context {F : Type} `{Arith F}.
Import Rocket.

(** X4.  [add_stage] appends: after the stage objects [ls] are added in
    this order, the stage list is the one before followed by [ls], and
    nothing else of the rocket or of the objects has changed: not the
    boosters and payloads, not the drag coefficient, the cross section, the
    position, the momentum, the axis or the roll rate.  So a rocket that
    has an active stage keeps it, and on a rocket without stages the first
    stage added is the active one.  A value that is no [Stage] object, a
    [Payload] object included, raises [TypeError] and changes nothing. *)
Theorem add_stages_order (ls : list loc) (w : world F) :
  let w' := add_stages ls w in
  w' = on_self (with_stages (stages (self w) ++ ls)) w ∧
  stages (self w') = stages (self w) ++ ls ∧
  head (stages (self w')) = head (stages (self w) ++ ls) ∧
  (∀ a rest, stages (self w) = a :: rest →
             head (stages (self w')) = Some a) ∧
  srbs (self w') = srbs (self w) ∧
  payloads (self w') = payloads (self w) ∧
  coeff_drag (self w') = coeff_drag (self w) ∧
  cross_sec_area (self w') = cross_sec_area (self w) ∧
  pos (self w') = pos (self w) ∧
  momentum (self w') = momentum (self w) ∧
  axis (self w') = axis (self w) ∧
  roll_rate (self w') = roll_rate (self w) ∧
  stage_objs w' = stage_objs w ∧
  payload_objs w' = payload_objs w ∧
  (∀ v, (∀ l, v ≠ PyObject Stage_class l) →
        add_stage v w = (Raise TypeError, w)).
Proof.
  cbv zeta.
  assert (Hfold : ∀ w0 : world F,
    add_stages ls w0 = on_self (with_stages (stages (self w0) ++ ls)) w0).
  { unfold add_stages. induction ls as [|a ls IH]; intros w0.
    - destruct w0 as [so po []]. unfold on_self, with_stages. simpl.
      by rewrite app_nil_r.
    - simpl. rewrite IH. unfold on_self, with_stages. simpl.
      by rewrite <- app_assoc. }
  rewrite Hfold. simpl.
  repeat (split; [reflexivity|]).
  split; [|repeat (split; [reflexivity|])].
  - intros a rest Hw. by rewrite Hw.
  - intros v Hv. destruct v as [| | | | | |[] l]; try done.
    by destruct (Hv l).
Qed.

(** X5.  [add_payload] of a payload object returns, appends the payload
    and changes nothing else; the total mass after is the one sum
    [total_mass + mass] of the total mass before and the payload's mass, in
    the arithmetic of the program: the payloads are added up last, and the
    new one last of them.  In binary64 that sum is rounded once, so that
    the total rises by the payload's mass up to that rounding; in exact
    arithmetic it rises by just that mass. *)
Theorem add_payload_total_mass (l : loc) (w : world F) :
  add_payload (PyObject Payload_class l) w
  = (Ok (), on_self (λ r, with_payloads (payloads r ++ [l]) r) w) ∧
  total_mass (add_payload (PyObject Payload_class l) w).2
  = (total_mass w + Payload.mass (payload_at w l))%num.
Proof.
  split; [done|]. unfold total_mass. simpl. by rewrite foldl_app.
Qed.
End Adding.

(** ** Sums in exact arithmetic *)

Section Sums.
Local Open Scope R_scope.

Lemma foldl_add_shift {A} (g : A → R) (xs : list A) (a : R) :
  foldl (λ acc x, acc + g x) a xs = a + sum_of g xs.
Proof.
  unfold sum_of. revert a. induction xs as [|x xs IH]; intros a; simpl.
  - lra.
  - rewrite (IH (a + g x)), (IH (0 + g x)). lra.
Qed.

Lemma sum_of_nil {A} (g : A → R) : sum_of g [] = 0.
Proof. reflexivity. Qed.

Lemma sum_of_cons {A} (g : A → R) (x : A) (xs : list A) :
  sum_of g (x :: xs) = g x + sum_of g xs.
Proof. unfold sum_of at 1. simpl. rewrite foldl_add_shift. lra. Qed.

Lemma sum_of_app {A} (g : A → R) (xs ys : list A) :
  sum_of g (xs ++ ys) = sum_of g xs + sum_of g ys.
Proof.
  induction xs as [|x xs IH]; simpl.
  - rewrite sum_of_nil. lra.
  - rewrite !sum_of_cons, IH. lra.
Qed.

Lemma sum_of_ext {A} (g h : A → R) (xs : list A) :
  (∀ x, x ∈ xs → g x = h x) → sum_of g xs = sum_of h xs.
Proof.
  induction xs as [|x xs IH]; intros Hgh; [done|].
  rewrite !sum_of_cons, IH.
  - rewrite Hgh; [done|]. apply elem_of_cons. auto.
  - intros y Hy. apply Hgh, elem_of_cons. auto.
Qed.

Lemma sum_of_minus {A} (g h : A → R) (xs : list A) :
  sum_of (λ x, g x - h x) xs = sum_of g xs - sum_of h xs.
Proof.
  induction xs as [|x xs IH]; [rewrite !sum_of_nil; lra|].
  rewrite !sum_of_cons, IH. lra.
Qed.

(** The total mass, in exact arithmetic: the masses of the boosters, of
    the stages and of the payloads as they are listed. *)
Lemma total_mass_exact (w : Rocket.world R) :
  Rocket.total_mass w
  = sum_of (λ l, stage_mass (Rocket.stage_at w l)) (Rocket.srbs (Rocket.self w))
    + sum_of (λ l, stage_mass (Rocket.stage_at w l))
             (Rocket.stages (Rocket.self w))
    + sum_of (λ l, Payload.mass (Rocket.payload_at w l))
             (Rocket.payloads (Rocket.self w)).
Proof.
  unfold Rocket.total_mass. simpl.
  rewrite (foldl_add_shift (λ l, Payload.mass (Rocket.payload_at w l))).
  rewrite (foldl_add_shift
             (λ l, Stage.dry_mass (Rocket.stage_at w l)
                   + Stage.fuel_mass (Rocket.stage_at w l))).
  reflexivity.
Qed.
End Sums.

(** ** The total mass, in exact arithmetic *)

Section Mass.
Import Rocket.
Local Open Scope R_scope.

(** X6.  In exact arithmetic, [add_stage] and [add_srb] of a stage object
    raise the total mass by the mass [dry_mass + fuel_mass] of that
    object. *)
Theorem add_stage_total_mass (l : loc) (w : world R) :
  total_mass (add_stage (PyObject Stage_class l) w).2
  = total_mass w + stage_mass (stage_at w l) ∧
  total_mass (add_srb (PyObject Stage_class l) w).2
  = total_mass w + stage_mass (stage_at w l).
Proof.
  rewrite !total_mass_exact. simpl. rewrite !sum_of_app, !sum_of_cons.
  rewrite !sum_of_nil. unfold stage_at, payload_at. simpl. split; lra.
Qed.

(** X7.  In exact arithmetic, for a rocket with a stage and a total mass
    other than zero, [separate_active_stage] lowers the total mass by the
    mass [dry_mass + fuel_mass] of the stage it removes. *)
Theorem separate_active_stage_total_mass (w : world R) (stage : loc)
    (rest : list loc) :
  stages (self w) = stage :: rest →
  total_mass w ≠ 0 →
  (separate_active_stage w).1 = Ok () ∧
  total_mass (separate_active_stage w).2
  = total_mass w - stage_mass (stage_at w stage).
Proof.
  intros Hs HM.
  unfold separate_active_stage, mbind, Py_bind, bind, get, lift. simpl.
  rewrite exact_truediv by done.
  unfold pop_active_stage. rewrite Hs. simpl. split; [done|].
  rewrite !total_mass_exact. simpl. rewrite Hs, sum_of_cons.
  unfold stage_at, payload_at. simpl. lra.
Qed.

Lemma separate_active_stage_total_mass_witness :
  (separate_active_stage exact_two_stage).1 = Ok () ∧
  total_mass (separate_active_stage exact_two_stage).2
  = total_mass exact_two_stage - stage_mass (stage_at exact_two_stage 0%nat).
Proof.
  apply (separate_active_stage_total_mass exact_two_stage 0%nat [1%nat]).
  - reflexivity.
  - unfold total_mass, exact_two_stage. simpl. lra.
Defined.

(** X8.  In exact arithmetic, for a rocket with a total mass [M] other than
    zero, [separate_srbs] returns and empties the booster list, leaving the
    stages, the payloads and the objects as they are.  The total mass
    falls by the masses of the boosters listed; the new momentum is the new
    total mass [M'] times the velocity [P/M] of before, that is
    [P * (M'/M)], and the velocity is unchanged when [M'] is not zero. *)
Theorem separate_srbs_momentum (w : world R) :
  total_mass w ≠ 0 →
  ∃ w' velocity,
    separate_srbs w = (Ok (), w') ∧
    srbs (self w') = [] ∧
    stages (self w') = stages (self w) ∧
    payloads (self w') = payloads (self w) ∧
    stage_objs w' = stage_objs w ∧
    payload_objs w' = payload_objs w ∧
    total_mass w'
    = total_mass w - sum_of (λ l, stage_mass (stage_at w l)) (srbs (self w)) ∧
    Vector.truediv (momentum (self w)) (total_mass w) = Ok velocity ∧
    momentum (self w') = Vector.rmul (total_mass w') velocity ∧
    momentum (self w')
    = Vector.rmul (total_mass w' / total_mass w) (momentum (self w)) ∧
    (total_mass w' ≠ 0 →
     Vector.truediv (momentum (self w')) (total_mass w') = Ok velocity).
Proof.
  intros HM.
  unfold separate_srbs, mbind, Py_bind, bind, get, lift. simpl.
  rewrite exact_truediv by done. simpl.
  eexists _, _. split; [reflexivity|]. simpl.
  repeat (split; [reflexivity|]).
  split.
  { rewrite !total_mass_exact. simpl. rewrite sum_of_nil.
    unfold stage_at, payload_at. simpl. lra. }
  split; [reflexivity|].
  set (M' := total_mass _). split; [reflexivity|]. split.
  - unfold Vector.rmul. simpl. f_equal; field; done.
  - intros HM'. rewrite exact_truediv by done. simpl.
    f_equal. f_equal; field; done.
Qed.

Lemma separate_srbs_momentum_witness :
  ∃ w' velocity,
    separate_srbs exact_boosted = (Ok (), w') ∧
    srbs (self w') = [] ∧
    stages (self w') = stages (self exact_boosted) ∧
    payloads (self w') = payloads (self exact_boosted) ∧
    stage_objs w' = stage_objs exact_boosted ∧
    payload_objs w' = payload_objs exact_boosted ∧
    total_mass w'
    = total_mass exact_boosted
      - sum_of (λ l, stage_mass (stage_at exact_boosted l))
               (srbs (self exact_boosted)) ∧
    Vector.truediv (momentum (self exact_boosted)) (total_mass exact_boosted)
    = Ok velocity ∧
    momentum (self w') = Vector.rmul (total_mass w') velocity ∧
    momentum (self w')
    = Vector.rmul (total_mass w' / total_mass exact_boosted)
                  (momentum (self exact_boosted)) ∧
    (total_mass w' ≠ 0 →
     Vector.truediv (momentum (self w')) (total_mass w') = Ok velocity).
Proof.
  apply (separate_srbs_momentum exact_boosted).
  unfold total_mass, exact_boosted. simpl. lra.
Defined.
End Mass.

(** ** Burning and the total mass *)

Lemma update_total_mass_run `{Arith F} (dt : F) (w : Rocket.world F) :
  (dt >? f0)%num = true →
  Rocket.update_total_mass (PyFloat dt) w
  = (Ok (),
     Rocket.World
       (foldl (stored (Stage.update_mass dt)) (Rocket.stage_objs w)
              (burning (Rocket.self w)))
       (Rocket.payload_objs w) (Rocket.self w)).
Proof.
  intros Hdt. unfold Rocket.update_total_mass. rewrite Hdt.
  unfold mbind, Py_bind, bind, get, burning. simpl.
  destruct (Rocket.stages (Rocket.self w)) as [|stage rest]; simpl.
  - unfold ret. by rewrite for_each_call_stage_modify.
  - by rewrite for_each_call_stage_modify.
Qed.

Lemma occurrences_NoDup (l : loc) (ls : list loc) :
  NoDup ls → l ∈ ls → occurrences l ls = 1.
Proof.
  unfold occurrences. induction ls as [|a ls IH]; intros Hnd Hl.
  - by apply elem_of_nil in Hl.
  - apply NoDup_cons in Hnd as [Ha Hnd]. rewrite filter_cons.
    destruct (decide (a = l)) as [->|Hne]; simpl.
    + f_equal. by apply (occurrences_not_elem l ls).
    + apply IH; [done|]. apply elem_of_cons in Hl as [->|Hl]; done.
Qed.

Section Burning.
Import Rocket.
Local Open Scope R_scope.

Lemma sum_of_scal {A} (g : A → R) (c : R) (xs : list A) :
  sum_of (λ x, g x * c) xs = sum_of g xs * c.
Proof.
  induction xs as [|x xs IH]; [rewrite !sum_of_nil; lra|].
  rewrite !sum_of_cons, IH. lra.
Qed.

(** X9.  In exact arithmetic, for [dt > 0] and a rocket whose stage and
    booster lists name each object once, [update_total_mass(dt)] lowers
    the total mass by [dt] times the fuel consumption
    [max_dmdt * throttle/100] of the active stage and of every booster;
    the reserve stages and the payloads weigh what they did. *)
Theorem update_total_mass_total_mass (dt : R) (w : world R) :
  dt > 0 →
  NoDup (stages (self w) ++ srbs (self w)) →
  (∀ l, l ∈ burning (self w) → (l < length (stage_objs w))%nat) →
  (update_total_mass (PyFloat dt) w).1 = Ok () ∧
  total_mass (update_total_mass (PyFloat dt) w).2
  = total_mass w
    - sum_of (λ l, Stage.current_fuel_consumption (stage_at w l))
             (burning (self w)) * dt.
Proof.
  intros Hdt Hnd Hvalid.
  rewrite update_total_mass_run by (simpl; by apply bool_decide_eq_true_2).
  split; [done|]. simpl.
  set (objs' := foldl _ _ _).
  assert (Hlen : length objs' = length (stage_objs w))
    by apply foldl_stored_length.
  assert (Hnd_burning : NoDup (burning (self w))).
  { unfold burning. destruct (stages (self w)) as [|s rest]; simpl in *.
    - done.
    - apply NoDup_cons in Hnd as [Hs Hnd]. apply NoDup_cons. split.
      + intros Hin. apply Hs, elem_of_app. by right.
      + by apply NoDup_app in Hnd as (_ & _ & ?). }
  assert (Hin : ∀ l, l ∈ burning (self w) →
    stage_mass (objs' !!! l)
    = stage_mass (stage_at w l)
      - Stage.current_fuel_consumption (stage_at w l) * dt).
  { intros l Hl. unfold objs'.
    rewrite foldl_stored_lookup by auto.
    rewrite occurrences_NoDup by done. simpl.
    unfold stage_mass, Stage.current_fuel_consumption, stage_at. simpl. lra. }
  assert (Hout : ∀ l, l ∉ burning (self w) →
    stage_mass (objs' !!! l) = stage_mass (stage_at w l)).
  { intros l Hl. unfold stage_at.
    destruct (decide (l < length (stage_objs w))%nat) as [Hlt|Hge].
    - unfold objs'. rewrite foldl_stored_lookup by done.
      by rewrite occurrences_not_elem.
    - f_equal. apply lookup_total_same_length; [done|lia]. }
  rewrite !total_mass_exact. unfold stage_at at 1 2, payload_at at 1. simpl.
  assert (Hsrbs :
    sum_of (λ l, stage_mass (objs' !!! l)) (srbs (self w))
    = sum_of (λ l, stage_mass (stage_at w l)) (srbs (self w))
      - sum_of (λ l, Stage.current_fuel_consumption (stage_at w l))
               (srbs (self w)) * dt).
  { rewrite <- sum_of_scal, <- sum_of_minus. apply sum_of_ext.
    intros l Hl. apply Hin. unfold burning. apply elem_of_app. by right. }
  rewrite Hsrbs. unfold burning in *.
  destruct (stages (self w)) as [|s rest]; simpl in *.
  - rewrite !sum_of_nil. unfold payload_at. lra.
  - rewrite !sum_of_cons.
    rewrite (Hin s) by (apply elem_of_cons; auto).
    assert (Hrest :
      sum_of (λ l, stage_mass (objs' !!! l)) rest
      = sum_of (λ l, stage_mass (stage_at w l)) rest).
    { apply sum_of_ext. intros l Hl. apply Hout.
      apply NoDup_cons in Hnd as [Hs Hnd].
      intros [->|Hb]%elem_of_cons.
      - apply Hs, elem_of_app. by left.
      - apply NoDup_app in Hnd as (_ & Hdisj & _). by apply (Hdisj l). }
    rewrite Hrest. unfold payload_at. lra.
Qed.

Lemma update_total_mass_total_mass_witness :
  (update_total_mass (PyFloat 2) exact_boosted).1 = Ok () ∧
  total_mass (update_total_mass (PyFloat 2) exact_boosted).2
  = total_mass exact_boosted
    - sum_of (λ l, Stage.current_fuel_consumption (stage_at exact_boosted l))
             (burning (self exact_boosted)) * 2.
Proof.
  apply (update_total_mass_total_mass 2 exact_boosted).
  - lra.
  - simpl. compute_done.
  - intros l. simpl. unfold burning. simpl.
    rewrite !elem_of_cons, elem_of_nil. intros [->|[->|[->|[]]]]; lia.
Defined.
End Burning.

(** ** Thrust and fuel of a stage, in exact arithmetic *)

Section Stage_exact.
Local Open Scope R_scope.

(** X10.  In exact arithmetic, a stage whose throttle lies in [[0, 100]]
    and whose [max_thrust_mag] and [max_dmdt] are not negative pushes with
    between 0 and [max_thrust_mag] and burns between 0 and [max_dmdt]: all
    of either at throttle 100, none at throttle 0. *)
Theorem Stage_thrust_bounds (s : Stage.t R) :
  0 <= Stage.throttle s <= 100 →
  0 <= Stage.max_thrust_mag s →
  0 <= Stage.max_dmdt s →
  0 <= Stage.current_thrust s <= Stage.max_thrust_mag s ∧
  0 <= Stage.current_fuel_consumption s <= Stage.max_dmdt s ∧
  (Stage.throttle s = 100 →
     Stage.current_thrust s = Stage.max_thrust_mag s ∧
     Stage.current_fuel_consumption s = Stage.max_dmdt s) ∧
  (Stage.throttle s = 0 →
     Stage.current_thrust s = 0 ∧ Stage.current_fuel_consumption s = 0).
Proof.
  intros Ht Hm Hd. unfold Stage.current_thrust, Stage.current_fuel_consumption.
  simpl. repeat split; try (intros ->); try nra; try lra.
Qed.

Lemma Stage_thrust_bounds_witness :
  0 <= Stage.current_thrust exact_stage <= Stage.max_thrust_mag exact_stage ∧
  0 <= Stage.current_fuel_consumption exact_stage
    <= Stage.max_dmdt exact_stage ∧
  (Stage.throttle exact_stage = 100 →
     Stage.current_thrust exact_stage = Stage.max_thrust_mag exact_stage ∧
     Stage.current_fuel_consumption exact_stage
     = Stage.max_dmdt exact_stage) ∧
  (Stage.throttle exact_stage = 0 →
     Stage.current_thrust exact_stage = 0 ∧
     Stage.current_fuel_consumption exact_stage = 0).
Proof. apply (Stage_thrust_bounds exact_stage); simpl; lra. Defined.

(** The fuel left after [n] calls of [update_mass(dt)]. *)
Lemma update_mass_iter_fuel (s : Stage.t R) (dt : R) (n : nat) :
  Stage.fuel_mass (Nat.iter n (Stage.update_mass dt) s)
  = Stage.fuel_mass s - INR n * (Stage.current_fuel_consumption s * dt).
Proof.
  induction n as [|n IH].
  - simpl. lra.
  - destruct (update_mass_iter_rates s dt n) as [Ed Et].
    rewrite S_INR. simpl. rewrite Ed, Et. simpl in IH. rewrite IH.
    unfold Stage.current_fuel_consumption. simpl. lra.
Qed.

Lemma update_mass_iter_thrust (s : Stage.t R) (dt : R) (n : nat) :
  Stage.current_thrust (Nat.iter n (Stage.update_mass dt) s)
  = Stage.current_thrust s.
Proof. induction n as [|n IH]; simpl; done. Qed.

(** X11.  [update_mass] has no floor at zero.  In exact arithmetic, a stage
    with [throttle > 0] and [max_dmdt > 0] that is stepped with a [dt > 0]
    has a negative [fuel_mass] after enough steps, and pushes with the
    thrust it had at the start all the while. *)
Theorem update_mass_below_zero (s : Stage.t R) (dt : R) :
  Stage.throttle s > 0 → Stage.max_dmdt s > 0 → dt > 0 →
  ∃ n, ∀ k, (n <= k)%nat →
    Stage.fuel_mass (Nat.iter k (Stage.update_mass dt) s) < 0 ∧
    Stage.current_thrust (Nat.iter k (Stage.update_mass dt) s)
    = Stage.current_thrust s.
Proof.
  intros Ht Hd Hdt.
  set (rate := Stage.current_fuel_consumption s * dt).
  assert (Hrate : 0 < rate).
  { unfold rate, Stage.current_fuel_consumption. simpl.
    apply Rmult_lt_0_compat; [|done].
    apply Rdiv_lt_0_compat; [|lra]. by apply Rmult_lt_0_compat. }
  destruct (INR_unbounded (Stage.fuel_mass s / rate)) as [n Hn].
  exists n. intros k Hk. split; [|apply update_mass_iter_thrust].
  rewrite update_mass_iter_fuel. fold rate.
  apply le_INR in Hk.
  assert (Stage.fuel_mass s < INR n * rate).
  { apply (Rmult_lt_compat_r rate) in Hn; [|done].
    unfold Rdiv in Hn. rewrite Rmult_assoc, Rinv_l in Hn; lra. }
  nra.
Qed.

Lemma update_mass_below_zero_witness :
  ∃ n, ∀ k, (n <= k)%nat →
    Stage.fuel_mass (Nat.iter k (Stage.update_mass 2) exact_stage) < 0 ∧
    Stage.current_thrust (Nat.iter k (Stage.update_mass 2) exact_stage)
    = Stage.current_thrust exact_stage.
Proof. apply (update_mass_below_zero exact_stage 2); simpl; lra. Defined.
End Stage_exact.

(** ** Throttle control *)

Lemma for_each_ext {S A} (xs : list A) (body1 body2 : A → Py S unit) (s : S) :
  (∀ x s', body1 x s' = body2 x s') →
  for_each xs body1 s = for_each xs body2 s.
Proof.
  intros Hb. revert s. induction xs as [|x xs IH]; intros s; [done|].
  simpl. unfold mbind, Py_bind, bind. rewrite Hb.
  destruct (body2 x s) as [[[]|e] s1]; [apply IH|done].
Qed.

Lemma occurrences_elem (l : loc) (ls : list loc) :
  l ∈ ls → ∃ n, occurrences l ls = S n.
Proof.
  unfold occurrences. induction ls as [|a ls IH]; intros Hl.
  - by apply elem_of_nil in Hl.
  - rewrite filter_cons. destruct (decide (a = l)) as [->|Hne]; simpl.
    + eauto.
    + apply IH. apply elem_of_cons in Hl as [->|Hl]; done.
Qed.

Section Ignition.
Context {F : Type} `{Arith F}.
Import Rocket.

(** Where [set_throttle(100.0)] passes its test, [ignite_srbs] stores a
    throttle of 100.0 in each booster in turn. *)
Lemma ignite_srbs_run (w : world F) :
  (f100 >? f100)%num || (f100 <? f0)%num = false →
  ignite_srbs w
  = (Ok (),
     World (foldl (stored (Stage.with_throttle f100)) (stage_objs w)
                  (srbs (self w)))
           (payload_objs w) (self w)).
Proof.
  intros H100. unfold ignite_srbs, mbind, Py_bind, bind, get. simpl.
  rewrite (for_each_ext _ _
             (λ srb, call_stage srb (modify (Stage.with_throttle f100)))).
  - apply for_each_call_stage_modify.
  - intros l w'. unfold call_stage, Stage.set_throttle. by rewrite H100.
Qed.

Lemma with_throttle_iter (v : F) (s : Stage.t F) (n : nat) :
  Nat.iter (S n) (Stage.with_throttle v) s = Stage.with_throttle v s.
Proof. induction n as [|n IH]; [done|]. simpl in *. by rewrite IH. Qed.

Lemma ignite_srbs_objects (w : world F) (l : loc) :
  (l < length (stage_objs w))%nat →
  foldl (stored (Stage.with_throttle f100)) (stage_objs w) (srbs (self w))
    !!! l
  = if bool_decide (l ∈ srbs (self w))
    then Stage.with_throttle f100 (stage_at w l)
    else stage_at w l.
Proof.
  intros Hl. rewrite foldl_stored_lookup by done. unfold stage_at.
  case_bool_decide as Hin.
  - destruct (occurrences_elem l _ Hin) as [n ->]. apply with_throttle_iter.
  - by rewrite occurrences_not_elem.
Qed.

Lemma ignite_srbs_twice (objs : list (Stage.t F)) (ls : list loc) :
  foldl (stored (Stage.with_throttle f100))
        (foldl (stored (Stage.with_throttle f100)) objs ls) ls
  = foldl (stored (Stage.with_throttle f100)) objs ls.
Proof.
  set (objs' := foldl _ objs ls).
  assert (Hlen' : length objs' = length objs) by apply foldl_stored_length.
  assert (Hlen : length (foldl (stored (Stage.with_throttle f100)) objs' ls)
                 = length objs') by apply foldl_stored_length.
  apply list_eq. intros l.
  destruct (decide (l < length objs')%nat) as [Hlt|Hge].
  - rewrite !list_lookup_lookup_total_lt by lia. f_equal.
    rewrite foldl_stored_lookup by done.
    destruct (decide (l ∈ ls)) as [Hin|Hout].
    + destruct (occurrences_elem l _ Hin) as [n En]. rewrite En.
      rewrite with_throttle_iter. unfold objs'.
      rewrite !foldl_stored_lookup by lia. rewrite En.
      by rewrite !with_throttle_iter.
    + by rewrite occurrences_not_elem.
  - rewrite !lookup_ge_None_2 by lia. done.
Qed.
End Ignition.

Section Throttle.
Import Rocket.

(** X12.  In binary64, [adjust_throttle] on a rocket without stages returns
    and changes nothing, whatever its argument is, a string included.  On
    a rocket with stages it raises [TypeError] for a value that is no
    float and [ValueError] for a float outside [[0.0, 100.0]], NaN
    included, changing nothing; a float of the interval becomes the
    throttle of the active stage object, and of no other object.  The
    check of [Stage.set_throttle] behind it never fails. *)
Theorem adjust_throttle_spec (throttle : pyval float) (w : world float) :
  match stages (self w) with
  | [] => adjust_throttle throttle w = (Ok (), w)
  | stage :: _ =>
      match throttle with
      | PyFloat v =>
          if in_throttle_range v
          then adjust_throttle throttle w
               = (Ok (),
                  World (<[stage := Stage.with_throttle v (stage_at w stage)]>
                           (stage_objs w))
                        (payload_objs w) (self w))
          else adjust_throttle throttle w = (Raise ValueError, w)
      | _ => adjust_throttle throttle w = (Raise TypeError, w)
      end
  end.
Proof.
  unfold adjust_throttle, mbind, Py_bind, bind, get. simpl.
  destruct (stages (self w)) as [|stage rest]; [done|].
  destruct throttle as [v| | | | | |]; try done.
  change ((0 <=? v)%float && (v <=? 100)%float) with (in_throttle_range v).
  destruct (in_throttle_range v) eqn:Ev; [|done].
  unfold call_stage, Stage.set_throttle. simpl.
  assert ((100 <? v)%float || (v <? 0)%float = false) as ->; [|done].
  apply throttle_test_iff. by left.
Qed.

(** X13.  In binary64, [ignite_srbs] never raises.  It leaves the rocket
    and the payloads as they are, sets the throttle of every stage object
    listed as a booster to [100.0], and changes no other attribute and no
    other object; a second call changes nothing more. *)
Theorem ignite_srbs_spec (w : world float) :
  ∃ w', ignite_srbs w = (Ok (), w') ∧
    self w' = self w ∧
    payload_objs w' = payload_objs w ∧
    length (stage_objs w') = length (stage_objs w) ∧
    (∀ l, (l < length (stage_objs w))%nat →
       stage_at w' l
       = if bool_decide (l ∈ srbs (self w))
         then Stage.with_throttle 100%float (stage_at w l)
         else stage_at w l) ∧
    ignite_srbs w' = (Ok (), w').
Proof.
  eexists. split; [by apply ignite_srbs_run|]. simpl.
  split; [done|]. split; [done|].
  split; [apply foldl_stored_length|].
  split; [intros l Hl; exact (ignite_srbs_objects w l Hl)|].
  rewrite ignite_srbs_run by done. simpl. f_equal. f_equal.
  exact (ignite_srbs_twice (F := float) (stage_objs w) (srbs (self w))).
Qed.
End Throttle.

(** ** Thrust of the rocket *)

Section Thrust.
Import Rocket.

(** X14.  In binary64, a rocket without stages and without boosters has
    no thrust, whatever payloads it carries: [active_stage_thrust],
    [srb_thrust] and [total_thrust] are the zero vector. *)
Theorem total_thrust_without_engines (w : world float) :
  stages (self w) = [] →
  srbs (self w) = [] →
  active_stage_thrust w = Vector.Vector 0%float 0%float 0%float ∧
  srb_thrust w = Vector.Vector 0%float 0%float 0%float ∧
  total_thrust w = Vector.Vector 0%float 0%float 0%float.
Proof.
  intros Hs Hb. unfold total_thrust, active_stage_thrust, srb_thrust.
  rewrite Hs, Hb. done.
Qed.

Lemma total_thrust_without_engines_witness :
  active_stage_thrust payload_only = Vector.Vector 0%float 0%float 0%float ∧
  srb_thrust payload_only = Vector.Vector 0%float 0%float 0%float ∧
  total_thrust payload_only = Vector.Vector 0%float 0%float 0%float.
Proof. apply (total_thrust_without_engines payload_only); reflexivity. Defined.

Local Open Scope R_scope.

(** X15.  In exact arithmetic, after [ignite_srbs] the boosters push along
    the axis with the sum of their [max_thrust_mag]. *)
Theorem ignited_srb_thrust (w : world R) :
  (∀ l, l ∈ srbs (self w) → (l < length (stage_objs w))%nat) →
  (ignite_srbs w).1 = Ok () ∧
  srb_thrust (ignite_srbs w).2
  = Vector.rmul
      (sum_of (λ l, Stage.max_thrust_mag (stage_at w l)) (srbs (self w)))
      (axis (self w)).
Proof.
  intros Hvalid.
  assert (H100 : (f100 >? f100)%num || (f100 <? f0)%num = false).
  { simpl. rewrite !bool_decide_eq_false_2 by lra. done. }
  rewrite (ignite_srbs_run w H100). split; [done|]. simpl.
  unfold srb_thrust. simpl.
  destruct (srbs (self w)) as [|b bs] eqn:Eb.
  - rewrite sum_of_nil. unfold Vector.rmul. simpl. f_equal; ring.
  - f_equal. rewrite <- Eb in *.
    change (foldl ?f 0 ?xs) with
      (sum_of (λ srb, Stage.current_thrust
                        (stage_at (World (foldl (stored (Stage.with_throttle
                           100)) (stage_objs w) (srbs (self w)))
                           (payload_objs w) (self w)) srb))
              (srbs (self w))).
    apply sum_of_ext. intros l Hl. unfold stage_at at 1. simpl.
    pose proof (ignite_srbs_objects w l (Hvalid l Hl)) as E.
    simpl in E. rewrite E. rewrite bool_decide_eq_true_2 by done.
    unfold Stage.current_thrust. simpl. field.
Qed.

Lemma ignited_srb_thrust_witness :
  (ignite_srbs exact_boosted).1 = Ok () ∧
  srb_thrust (ignite_srbs exact_boosted).2
  = Vector.rmul
      (sum_of (λ l, Stage.max_thrust_mag (stage_at exact_boosted l))
              (srbs (self exact_boosted)))
      (axis (self exact_boosted)).
Proof.
  apply (ignited_srb_thrust exact_boosted).
  intros l. simpl. rewrite !elem_of_cons, elem_of_nil.
  intros [->|[->|[]]]; lia.
Defined.
End Thrust.

(** ** Attitude, in exact arithmetic *)

Section Attitude.
Import Rocket.
Local Open Scope R_scope.

Lemma unit_vector_squares (v : Vector.t R) :
  unit_vector v →
  Vector.x v * Vector.x v + Vector.y v * Vector.y v + Vector.z v * Vector.z v
  = 1.
Proof.
  unfold unit_vector, Vector.norm, Vector.dot. simpl. intros Hn.
  pose proof (Rle_0_sqr (Vector.x v)). pose proof (Rle_0_sqr (Vector.y v)).
  pose proof (Rle_0_sqr (Vector.z v)). unfold Rsqr in *.
  apply sqrt_lem_0 in Hn; lra.
Qed.

Lemma attitude_exact (w : world R) :
  attitude w = acos (Vector.y (axis (self w))).
Proof. unfold attitude, Vector.dot. simpl. f_equal. ring. Qed.

(** X16.  In exact arithmetic, the attitude of a rocket with a unit axis
    is the angle between 0 and pi whose cosine is the [y] component of the
    axis: 0 exactly when the axis points up. *)
Theorem attitude_range (w : world R) :
  unit_vector (axis (self w)) →
  0 <= attitude w <= PI ∧
  cos (attitude w) = Vector.y (axis (self w)) ∧
  (attitude w = 0 ↔ Vector.y (axis (self w)) = 1).
Proof.
  intros Hu. rewrite attitude_exact.
  pose proof (dot_up_range _ Hu) as Hy. unfold Vector.dot in Hy.
  simpl in Hy.
  assert (Hy' : -1 <= Vector.y (axis (self w)) <= 1) by lra.
  split; [apply acos_bound|]. split; [by apply cos_acos|]. split.
  - intros H0. rewrite <- (cos_acos (Vector.y (axis (self w)))) by done.
    rewrite H0. apply cos_0.
  - intros ->. apply acos_1.
Qed.

Lemma attitude_range_witness :
  0 <= attitude (World [] [] exact_rocket) <= PI ∧
  cos (attitude (World [] [] exact_rocket))
  = Vector.y (axis (self (World [] [] exact_rocket))) ∧
  (attitude (World [] [] exact_rocket) = 0 ↔
   Vector.y (axis (self (World [] [] exact_rocket))) = 1).
Proof.
  apply (attitude_range (World [] [] exact_rocket)).
  unfold unit_vector, Vector.norm, Vector.dot. simpl.
  replace (0 * 0 + 1 * 1 + 0 * 0) with 1 by ring. apply sqrt_1.
Defined.

(** X17.  In exact arithmetic, [set_attitude] turns a unit axis by
    [roll_rate * time_step] as long as the new angle stays between 0 and
    pi: the attitude after the call is the attitude before plus
    [roll_rate * time_step], and the axis is
    [(sin attitude, cos attitude, 0)]. *)
Theorem set_attitude_advances (time_step : R) (w : world R) :
  0 <= attitude w + roll_rate (self w) * time_step <= PI →
  let w' := (set_attitude time_step w).2 in
  (set_attitude time_step w).1 = Ok () ∧
  attitude w' = attitude w + roll_rate (self w) * time_step ∧
  axis (self w') = Vector.Vector (sin (attitude w')) (cos (attitude w')) 0 ∧
  roll_rate (self w') = roll_rate (self w) ∧
  momentum (self w') = momentum (self w).
Proof.
  intros Hrange. cbv zeta. rewrite set_attitude_exact. cbn [fst snd].
  split; [done|].
  assert (E : attitude
                (on_self (with_axis
                   (Vector.Vector
                      (sin (attitude w + roll_rate (self w) * time_step))
                      (cos (attitude w + roll_rate (self w) * time_step)) 0))
                   w)
              = attitude w + roll_rate (self w) * time_step).
  { rewrite attitude_exact. simpl. by apply acos_cos. }
  rewrite E. done.
Qed.

Lemma set_attitude_advances_witness :
  let w := World [] [] (with_roll_rate (PI / 4) exact_rocket) in
  let w' := (set_attitude 2 w).2 in
  (set_attitude 2 w).1 = Ok () ∧
  attitude w' = attitude w + roll_rate (self w) * 2 ∧
  axis (self w') = Vector.Vector (sin (attitude w')) (cos (attitude w')) 0 ∧
  roll_rate (self w') = roll_rate (self w) ∧
  momentum (self w') = momentum (self w).
Proof.
  apply (set_attitude_advances 2
           (World [] [] (with_roll_rate (PI / 4) exact_rocket))).
  rewrite attitude_exact. simpl. rewrite acos_1.
  pose proof PI_RGT_0. lra.
Defined.

(** X18.  [set_attitude] keeps no sense of direction.  In exact
    arithmetic, with a roll rate or a time step of zero it does not leave a
    unit axis [(x, y, z)] as it is: the new axis is
    [(sqrt (x*x + z*z), y, 0)], with the lean folded into the x-y plane and
    towards positive [x]. *)
Theorem set_attitude_zero_rate (time_step : R) (w : world R) :
  unit_vector (axis (self w)) →
  roll_rate (self w) * time_step = 0 →
  axis (self (set_attitude time_step w).2)
  = Vector.Vector
      (R_sqrt.sqrt (Vector.x (axis (self w)) * Vector.x (axis (self w))
                   + Vector.z (axis (self w)) * Vector.z (axis (self w))))
      (Vector.y (axis (self w))) 0.
Proof.
  intros Hu Hrate. rewrite set_attitude_exact. cbn [fst snd].
  rewrite Hrate, Rplus_0_r, attitude_exact. simpl.
  pose proof (dot_up_range _ Hu) as Hy. unfold Vector.dot in Hy.
  simpl in Hy.
  assert (Hy' : -1 <= Vector.y (axis (self w)) <= 1) by lra.
  rewrite sin_acos, cos_acos by done.
  f_equal. f_equal. pose proof (unit_vector_squares _ Hu). unfold Rsqr. lra.
Qed.

Lemma set_attitude_zero_rate_witness :
  (axis (self exact_leaning) = Vector.Vector (-3 / 5) (4 / 5) 0 ∧
   axis (self (set_attitude 2 exact_leaning).2)
   = Vector.Vector (3 / 5) (4 / 5) 0) ∧
  (axis (self exact_tilted) = Vector.Vector 0 (4 / 5) (3 / 5) ∧
   axis (self (set_attitude 2 exact_tilted).2)
   = Vector.Vector (3 / 5) (4 / 5) 0).
Proof.
  assert (Hsq : ∀ a : R, a = 9 / 25 → R_sqrt.sqrt a = 3 / 5).
  { intros a ->. replace (9 / 25) with ((3 / 5) * (3 / 5)) by lra.
    apply sqrt_square. lra. }
  assert (Hone : ∀ a : R, a = 1 → R_sqrt.sqrt a = 1).
  { intros a ->. apply sqrt_1. }
  split; (split; [reflexivity|]).
  - rewrite (set_attitude_zero_rate 2 exact_leaning).
    + simpl. rewrite Hsq by lra. reflexivity.
    + unfold unit_vector, Vector.norm, Vector.dot. simpl. apply Hone. lra.
    + simpl. lra.
  - rewrite (set_attitude_zero_rate 2 exact_tilted).
    + simpl. rewrite Hsq by lra. reflexivity.
    + unfold unit_vector, Vector.norm, Vector.dot. simpl. apply Hone. lra.
    + simpl. lra.
Defined.
End Attitude.

(** ** What the rocket reads of its stages *)

Section Reads.
Context {F : Type} `{Arith F}.
Import Rocket.



End Reads.

Section Thrust_exact.
Import Rocket.
Local Open Scope R_scope.

Lemma sum_of_nonneg {A} (g : A → R) (xs : list A) :
  (∀ x, x ∈ xs → 0 <= g x) → 0 <= sum_of g xs.
Proof.
  induction xs as [|x xs IH]; intros Hg; [rewrite sum_of_nil; lra|].
  rewrite sum_of_cons.
  assert (0 <= g x) by (apply Hg, elem_of_cons; auto).
  assert (0 <= sum_of g xs)
    by (apply IH; intros y Hy; apply Hg, elem_of_cons; auto).
  lra.
Qed.

(** X20.  In exact arithmetic, the total thrust points along the axis of
    the rocket, and its size is the thrust of the active stage plus the
    thrusts of the boosters. *)
Theorem total_thrust_along_axis (w : world R) :
  total_thrust w
  = Vector.rmul
      (sum_of (λ l, Stage.current_thrust (stage_at w l)) (burning (self w)))
      (axis (self w)).
Proof.
  unfold total_thrust, active_stage_thrust, srb_thrust, burning.
  rewrite sum_of_app.
  assert (Hsrb :
    match srbs (self w) with
    | _ :: _ =>
        Vector.rmul
          (foldl (λ total srb,
                    (total + Stage.current_thrust (stage_at w srb))%num)
                 f0 (srbs (self w)))
          (axis (self w))
    | [] => Vector.Vector f0 f0 f0
    end
    = Vector.rmul
        (sum_of (λ l, Stage.current_thrust (stage_at w l)) (srbs (self w)))
        (axis (self w))).
  { destruct (srbs (self w)) as [|b bs]; [|done].
    rewrite sum_of_nil. unfold Vector.rmul. simpl. f_equal; ring. }
  rewrite Hsrb.
  destruct (stages (self w)) as [|s rest];
    unfold Vector.add, Vector.rmul, sum_of; simpl; f_equal; ring.
Qed.

(** X21.  In exact arithmetic, a rocket whose stages and boosters have no
    negative mass and that carries a payload of positive mass has a
    positive total mass, so that the division [momentum / total_mass] of
    [separate_srbs] cannot fail: the separation of the boosters
    returns. *)
Theorem total_mass_positive (w : world R) (payload : loc)
    (others : list loc) :
  (∀ l, l ∈ srbs (self w) ++ stages (self w) →
        0 <= stage_mass (stage_at w l)) →
  (∀ l, l ∈ payloads (self w) → 0 < Payload.mass (payload_at w l)) →
  payloads (self w) = payload :: others →
  0 < total_mass w ∧ (separate_srbs w).1 = Ok ().
Proof.
  intros Hstages Hpayloads Hp.
  assert (HM : 0 < total_mass w).
  { rewrite total_mass_exact.
    assert (0 <= sum_of (λ l, stage_mass (stage_at w l)) (srbs (self w))).
    { apply sum_of_nonneg. intros l Hl. apply Hstages, elem_of_app. auto. }
    assert (0 <= sum_of (λ l, stage_mass (stage_at w l)) (stages (self w))).
    { apply sum_of_nonneg. intros l Hl. apply Hstages, elem_of_app. auto. }
    assert (0 < Payload.mass (payload_at w payload)).
    { apply Hpayloads. rewrite Hp. apply elem_of_cons. auto. }
    assert (0 <= sum_of (λ l, Payload.mass (payload_at w l)) others).
    { apply sum_of_nonneg. intros l Hl. apply Rlt_le, Hpayloads.
      rewrite Hp. apply elem_of_cons. auto. }
    rewrite Hp, sum_of_cons. lra. }
  split; [done|].
  unfold separate_srbs, mbind, Py_bind, bind, get, lift. simpl.
  rewrite exact_truediv; [done|]. lra.
Qed.

Lemma total_mass_positive_witness :
  0 < total_mass exact_boosted ∧ (separate_srbs exact_boosted).1 = Ok ().
Proof.
  apply (total_mass_positive exact_boosted 0%nat []).
  - intros l. simpl. rewrite !elem_of_cons, elem_of_nil.
    intros [->|[->|[->|[->|[]]]]]; unfold stage_mass; simpl; lra.
  - intros l. simpl. rewrite !elem_of_cons, elem_of_nil.
    intros [->|[]]. simpl. lra.
  - reflexivity.
Defined.
End Thrust_exact.
